(** * LookML generation: views, explores and dashboards

    A shallow embedding of [generator/lookml.py] and of
    [generator/views/operational_monitoring_histogram_view.py], with the
    properties of the generation pipeline proved over it.

    Python objects that are mutated in place and shared (the [dimensions]
    list of a view) live in a heap and are referred to by location;
    everything else is a plain value.  Code that raises is modelled in a
    state-and-exception monad over the world the generator runs in. *)

From Stdlib Require Import Ascii.
From stdpp Require Import base strings list gmap sorting.

Set Warnings "-register-all".

(** ** Characters and string helpers *)

Definition nl : string := String "010"%char EmptyString.
Definition tab_char : ascii := "009"%char.
Definition newline_char : ascii := "010"%char.
Definition star_char : ascii := "*"%char.

(** [c in s] for a character. *)
Fixpoint has_char (c : ascii) (s : string) : bool :=
  match s with
  | EmptyString => false
  | String a s' => Ascii.eqb a c || has_char c s'
  end.

(** [needle in haystack] for strings. *)
Fixpoint contains (needle haystack : string) : bool :=
  String.prefix needle haystack ||
  match haystack with
  | EmptyString => false
  | String _ rest => contains needle rest
  end.

(** Python's [x or ''] on an optional string. *)
Definition or_empty (o : option string) : string :=
  match o with
  | Some s => s
  | None => EmptyString
  end.

(** ** Values

    The dictionaries, lists and strings that [to_lookml] returns and that
    [lkml.dump] serialises.  [VRef l] is a reference to the list object at
    location [l] of the heap: the returned dictionary of a view holds its
    [dimensions] list by reference, not by copy. *)

Abbreviation loc := nat.

Inductive Value :=
| VNone
| VStr (s : string)
| VList (xs : list Value)
| VDict (kv : list (string * Value))
| VRef (l : loc).

(** [lookml == {}] *)
Definition is_empty_dict (v : Value) : bool :=
  match v with
  | VDict [] => true
  | _ => false
  end.

(** A dimension is a dictionary with a ["name"] entry and further entries
    (["sql"], ["type"], render hints). *)
Record Dimension := mkDimension {
  d_name : string;
  d_rest : list (string * Value)
}.

Definition dimension_dict (d : Dimension) : Value :=
  VDict (("name", VStr (d_name d)) :: d_rest d).

(** ** Exceptions *)

(** Modelled from the spec: [generator.dryrun.Errors], the classification of
    an introspection failure, is defined in a module that is not embedded
    here; the spec names permission denied, malformed reference and generic
    backend error. *)
Inductive Errors :=
| PERMISSION_DENIED
| MALFORMED_REFERENCE
| BACKEND_ERROR.

Definition Errors_eqb (a b : Errors) : bool :=
  match a, b with
  | PERMISSION_DENIED, PERMISSION_DENIED => true
  | MALFORMED_REFERENCE, MALFORMED_REFERENCE => true
  | BACKEND_ERROR, BACKEND_ERROR => true
  | _, _ => false
  end.

Inductive Exc :=
| PyException (msg : string)
| KeyError (key : string)
| DryRunError (error : Errors) (use_cloud_function : bool) (msg : string)
| KeyboardInterrupt.

(** [isinstance(e, Exception)]: what [except Exception] catches. *)
Definition is_Exception (e : Exc) : bool :=
  match e with
  | KeyboardInterrupt => false
  | _ => true
  end.

(** [str(e)], as interpolated by an f-string. *)
Definition exc_str (e : Exc) : string :=
  match e with
  | PyException msg => msg
  | KeyError key => "'" +:+ key +:+ "'"
  | DryRunError _ _ msg => msg
  | KeyboardInterrupt => EmptyString
  end.

(** ** The world of a generation run *)

(** Positional arguments of [to_lookml]: the optional v1 name and the dry-run
    factory.  Python does not type them, and the callers and the histogram
    view do not agree on their order, so they are kept untyped here. *)
Inductive Arg :=
| ANone
| AStr (s : string)
| ADryRun (use_cloud_function : bool).

Record World := mkWorld {
  heap : list (list Dimension);      (* list objects, by location *)
  files : gmap string string;        (* path -> text written *)
  stdout : list string;              (* lines printed *)
  log : list string;                 (* messages given to logging.info *)
  dryruns : list (Arg * string)      (* introspection calls made so far *)
}.

Definition set_heap (h : list (list Dimension)) (w : World) : World :=
  mkWorld h (files w) (stdout w) (log w) (dryruns w).
Definition set_files (f : gmap string string) (w : World) : World :=
  mkWorld (heap w) f (stdout w) (log w) (dryruns w).
Definition set_stdout (o : list string) (w : World) : World :=
  mkWorld (heap w) (files w) o (log w) (dryruns w).
Definition set_log (l : list string) (w : World) : World :=
  mkWorld (heap w) (files w) (stdout w) l (dryruns w).
Definition set_dryruns (d : list (Arg * string)) (w : World) : World :=
  mkWorld (heap w) (files w) (stdout w) (log w) d.

Inductive Result (A : Type) :=
| Ok (a : A)
| Raise (e : Exc).
Arguments Ok {A} a.
Arguments Raise {A} e.

Definition M (A : Type) : Type := World -> Result A * World.

Definition ret {A} (a : A) : M A := fun w => (Ok a, w).
Definition raise {A} (e : Exc) : M A := fun w => (Raise e, w).
Definition bind {A B} (m : M A) (k : A -> M B) : M B :=
  fun w =>
    match m w with
    | (Ok a, w') => k a w'
    | (Raise e, w') => (Raise e, w')
    end.

Notation "'let*' x ':=' m 'in' k" := (bind m (fun x => k))
  (at level 10, x name, m at level 100, k at level 200).

(** [path.write_text(text)] *)
Definition write_text (path text : string) : M unit :=
  fun w => (Ok tt, set_files (<[path := text]> (files w)) w).

(** [print(line)] *)
Definition print (line : string) : M unit :=
  fun w => (Ok tt, set_stdout (stdout w ++ [line]) w).

(** [logging.info(message)] *)
Definition logging_info (message : string) : M unit :=
  fun w => (Ok tt, set_log (log w ++ [message]) w).

(** [lst.extend(more)] on the list object at [l] *)
Definition list_extend (l : loc) (more : list Dimension) : M unit :=
  fun w => (Ok tt, set_heap (alter (fun old => old ++ more) l (heap w)) w).

(** Allocation of a new list object. *)
Definition new_list (init : list Dimension) : M loc :=
  fun w => (Ok (length (heap w)), set_heap (heap w ++ [init]) w).

(** The contents of the list object at [l]. *)
Definition deref (h : list (list Dimension)) (l : loc) : list Dimension :=
  default [] (h !! l).

(** The value an object graph has at a given moment: every reference is
    replaced by the current contents of the list it points to.  This is what
    a serialiser sees. *)
Fixpoint snapshot (h : list (list Dimension)) (v : Value) : Value :=
  match v with
  | VNone => VNone
  | VStr s => VStr s
  | VList xs => VList (map (snapshot h) xs)
  | VDict kv => VDict (map (fun p => (fst p, snapshot h (snd p))) kv)
  | VRef l => VList (map dimension_dict (deref h l))
  end.

(** ** [textwrap.dedent]

    The standard-library function, as CPython defines it with its two
    regular expressions: lines holding only blanks are emptied, the margin is
    the longest run of blanks that starts every line with visible text, and
    that margin is cut from the front of every line that has it. *)

Definition is_blank (c : ascii) : bool :=
  Ascii.eqb c " "%char || Ascii.eqb c tab_char.

(** [text.split("\n")], the lines between newlines. *)
Fixpoint split_lines (s : string) : list string :=
  match s with
  | EmptyString => [EmptyString]
  | String c s' =>
      if Ascii.eqb c newline_char then EmptyString :: split_lines s'
      else match split_lines s' with
           | [] => [String c EmptyString]
           | line :: more => String c line :: more
           end
  end.

Definition join_lines (ls : list string) : string := String.concat nl ls.

Fixpoint all_blank (s : string) : bool :=
  match s with
  | EmptyString => true
  | String c s' => is_blank c && all_blank s'
  end.

(** The blanks a line begins with. *)
Fixpoint leading_blanks (s : string) : string :=
  match s with
  | EmptyString => EmptyString
  | String c s' => if is_blank c then String c (leading_blanks s') else EmptyString
  end.

(** [_whitespace_only_re.sub('', text)], line by line. *)
Definition blank_out (line : string) : string :=
  if all_blank line then EmptyString else line.

(** [_leading_whitespace_re.findall(text)]: the indentation of each line that
    has a character other than a blank. *)
Definition indents (ls : list string) : list string :=
  map leading_blanks (filter (fun l => negb (all_blank l) = true) ls).

Fixpoint common_prefix (a b : string) : string :=
  match a, b with
  | String x a', String y b' =>
      if Ascii.eqb x y then String x (common_prefix a' b') else EmptyString
  | _, _ => EmptyString
  end.

(** One turn of the loop over the indentations. *)
Definition update_margin (margin : option string) (indent : string) : option string :=
  match margin with
  | None => Some indent
  | Some m =>
      if String.prefix m indent then Some m
      else if String.prefix indent m then Some indent
      else Some (common_prefix m indent)
  end.

(** What is left of [s] once the prefix [p] is removed, if [s] starts
    with it. *)
Fixpoint strip_prefix (p s : string) : option string :=
  match p, s with
  | EmptyString, _ => Some s
  | String a p', String b s' => if Ascii.eqb a b then strip_prefix p' s' else None
  | String _ _, EmptyString => None
  end.

(** [re.sub(r'(?m)^' + margin, '', text)], line by line. *)
Definition cut_margin (margin line : string) : string :=
  default line (strip_prefix margin line).

Definition dedent (text : string) : string :=
  let ls := map blank_out (split_lines text) in
  match fold_left update_margin (indents ls) None with
  | Some (String c m) => join_lines (map (cut_margin (String c m)) ls)
  | _ => join_lines ls
  end.

(** ** The operational-monitoring histogram view *)

Definition ALLOWED_DIMENSIONS : list string :=
  ["branch"; "probe"; "histogram__VALUES__key"; "histogram__VALUES__value"].

(** A declared dimension of a table entry: its default and its options. *)
Record DimensionInfo := mkDimensionInfo {
  di_default : string;
  di_options : list string
}.

(** One entry of a [tables] list.  A key that the code reads with [.get] or
    with a subscript may be missing. *)
Record TableEntry := mkTableEntry {
  t_table : option string;
  t_xaxis : option string;
  t_dimensions : option (list (string * DimensionInfo));
  t_group_by_dimension : option string
}.

Record View := mkView {
  name : string;
  namespace : string;
  view_type : string;
  tables : list TableEntry;
  dimensions : loc;                     (* self.dimensions, a shared list *)
  parameters : list Value;
  percentile_ci_labels : list string
}.

Definition histogram_type : string := "operational_monitoring_histogram_view".

(** The f-string of [_percentile_measure], before [dedent]. *)
Definition percentile_sql_template (percentile_ci_label : string) : string :=
  nl +:+
  "                `moz-fx-data-shared-prod`.udf_js.jackknife_percentile_ci(" +:+ nl +:+
  "                    {% parameter percentile_conf %}," +:+ nl +:+
  "                    STRUCT(" +:+ nl +:+
  "                        mozfun.hist.merge(" +:+ nl +:+
  "                          ARRAY_AGG(" +:+ nl +:+
  "                            ${TABLE}.histogram IGNORE NULLS" +:+ nl +:+
  "                          )" +:+ nl +:+
  "                        ).values AS values" +:+ nl +:+
  "                    )" +:+ nl +:+
  "                )." +:+ percentile_ci_label +:+ nl +:+
  "            ".

Definition _percentile_measure (percentile_ci_label : string) : Value :=
  VDict [("name", VStr percentile_ci_label);
         ("type", VStr "number");
         ("sql", VStr (dedent (percentile_sql_template percentile_ci_label)))].

(** [d["name"] in ALLOWED_DIMENSIONS or
     d["name"] in self.tables[0].get("dimensions", {}).keys()] *)
Definition dimension_allowed (t0 : TableEntry) (d : Dimension) : bool :=
  bool_decide (d_name d ∈ ALLOWED_DIMENSIONS)
  || bool_decide (d_name d ∈ map fst (default [] (t_dimensions t0))).

Section HistogramView.

(** The answer of the remote engine to a dry run, given the calls made
    before it.  [lookml_utils._generate_dimensions] is defined in a module
    that is not embedded here; it is taken as the call to the introspector
    that turns the columns of the table into dimensions. *)
Variable schema_of : Arg -> string -> list (Arg * string) -> Result (list Dimension).

Definition _generate_dimensions (client : Arg) (table : string) : M (list Dimension) :=
  fun w => (schema_of client table (dryruns w),
            set_dryruns (dryruns w ++ [(client, table)]) w).

(** [self.tables[0]["table"]] *)
Definition table_of (t0 : TableEntry) : M string :=
  match t_table t0 with
  | Some t => ret t
  | None => raise (KeyError "table")
  end.

Definition to_lookml (self : View) (bq_client v1_name : Arg) : M Value :=
  match tables self with
  | [] =>
      raise (PyException
               ("Operational Monitoring view " +:+ name self +:+ " has no tables"))
  | t0 :: _ =>
      let* reference_table := table_of t0 in
      let* all_dimensions := _generate_dimensions bq_client reference_table in
      let filtered_dimensions :=
        filter (fun d => dimension_allowed t0 d = true) all_dimensions in
      let* _ := list_extend (dimensions self) filtered_dimensions in
      ret (VDict
             [("views",
               VList
                 [VDict
                    [("name", VStr (name self));
                     ("sql_table_name", VStr reference_table);
                     ("dimensions", VRef (dimensions self));
                     ("parameters", VList (parameters self));
                     ("measures",
                      VList (map _percentile_measure (percentile_ci_labels self)))]])])
  end.

End HistogramView.

(** ** [generator/lookml.py] *)

Definition FILE_HEADER : string :=
  nl +:+
  "# *Do not manually modify this file*" +:+ nl +:+
  "#" +:+ nl +:+
  "# This file has been generated via https://github.com/mozilla/lookml-generator" +:+ nl +:+
  "# You can extend this view in the looker-spoke-default project (https://github.com/mozilla/looker-spoke-default)" +:+ nl +:+
  nl.

(** [directory / file_name] for a relative file name. *)
Definition path_join (directory file_name : string) : string :=
  directory +:+ "/" +:+ file_name.

(** A declarative artifact spec: the [type] discriminator, which may be
    missing, the table entries and the remaining keys. *)
Record ArtifactSpec := mkArtifactSpec {
  spec_type : option string;
  spec_tables : list TableEntry;
  spec_other : list (string * Value)
}.

(** The interface of an explore and of a dashboard, as [lookml.py] uses
    them; their classes are not embedded here. *)
Record Explore := mkExplore {
  get_dependent_views : M (list string);
  explore_to_lookml : Arg -> M Value
}.

Record Dashboard := mkDashboard {
  dashboard_to_lookml : M string
}.

(** [d[key]] on a dictionary with string keys. *)
Definition getitem {A} (d : gmap string A) (key : string) : M A :=
  match d !! key with
  | Some a => ret a
  | None => raise (KeyError key)
  end.

(** [spec["type"]] *)
Definition type_of (spec : ArtifactSpec) : M string :=
  match spec_type spec with
  | Some t => ret t
  | None => raise (KeyError "type")
  end.

(** What a generator has done when its consumer has run it to the end: the
    values it yielded, in order, and the exception that ended it, if one
    did. *)
Record Generated := mkGenerated {
  yielded : list string;
  raised : option Exc
}.

Definition finished : Generated := mkGenerated [] None.
Definition failed (e : Exc) : Generated := mkGenerated [] (Some e).
Definition yield (path : string) (r : Generated * World) : Generated * World :=
  (mkGenerated (path :: yielded (fst r)) (raised (fst r)), snd r).

(** The outcome [r] of the rest of a run, after the paths [ys] have been
    yielded. *)
Definition after_yields (ys : list string) (r : Generated * World) : Generated * World :=
  (mkGenerated (ys ++ yielded (fst r)) (raised (fst r)), snd r).

(** [f"/looker-hub/{namespace}/views/{view}.view.lkml"] *)
Definition include_of (namespace view : string) : string :=
  "/looker-hub/" +:+ namespace +:+ "/views/" +:+ view +:+ ".view.lkml".

Definition file_lookml (namespace : string) (dependent_views : list string)
    (explores : Value) : Value :=
  VDict [("includes", VList (map (fun view => VStr (include_of namespace view))
                                 dependent_views));
         ("explores", explores)].

(** The objects of one namespace; each of the three sub-maps may be
    missing ([lookml_objects.get(..., {})]). *)
Record NamespaceObjects := mkNamespaceObjects {
  ns_views : option (list (string * ArtifactSpec));
  ns_explores : option (list (string * ArtifactSpec));
  ns_dashboards : option (list (string * ArtifactSpec))
}.

(** [{d["name"]: d["v1_name"] for d in glean_apps}] *)
Definition _glean_apps_to_v1_map (glean_apps : list (string * string)) : gmap string string :=
  fold_left (fun m d => <[fst d := snd d]> m) glean_apps ∅.

(** The body of a loop run on the paths that one turn has yielded. *)
Fixpoint run_body (body : string -> M unit) (paths : list string) : M unit :=
  match paths with
  | [] => ret tt
  | path :: more => let* _ := body path in run_body body more
  end.

Section Lookml.

(** The registries of the variant families, [lkml.dump], the fallback
    store, the introspector and the view classes other than the histogram
    view are collaborators that [lookml.py] imports; they are parameters
    here. *)
Variable VIEW_TYPES : gmap string (string -> string -> ArtifactSpec -> M View).
Variable EXPLORE_TYPES : gmap string (string -> ArtifactSpec -> string -> M Explore).
Variable DASHBOARD_TYPES : gmap string (string -> string -> ArtifactSpec -> M Dashboard).
Variable lkml_dump : Value -> option string.
Variable get_file_from_looker_hub : string -> M unit.
Variable schema_of : Arg -> string -> list (Arg * string) -> Result (list Dimension).
Variable other_to_lookml : View -> Arg -> Arg -> M Value.
Variable generate_datagroups : list View -> string -> string -> Arg -> M unit.

(** [view.to_lookml(a, b)]: the method of the class of [view]. *)
Definition view_to_lookml (view : View) (a b : Arg) : M Value :=
  if String.eqb (view_type view) histogram_type
  then to_lookml schema_of view a b
  else other_to_lookml view a b.

Fixpoint _generate_views (out_dir : string) (views : list View)
    (v1_name dryrun : Arg) (w : World) : Generated * World :=
  match views with
  | [] => (finished, w)
  | view :: rest =>
      let w0 :=
        snd (logging_info
               ("Generating lookml for view " +:+ name view +:+ " in " +:+
                namespace view +:+ " of type " +:+ view_type view) w) in
      let path := path_join out_dir (name view +:+ ".view.lkml") in
      match view_to_lookml view v1_name dryrun w0 with
      | (Ok lookml, w1) =>
          if is_empty_dict lookml
          then _generate_views out_dir rest v1_name dryrun w1
          else
            let w2 :=
              snd (write_text path
                     (FILE_HEADER +:+ or_empty (lkml_dump (snapshot (heap w1) lookml)))
                     w1) in
            yield path (_generate_views out_dir rest v1_name dryrun w2)
      | (Raise (DryRunError error use_cloud_function msg), w1) =>
          if Errors_eqb error PERMISSION_DENIED && use_cloud_function
          then
            let w2 :=
              snd (print ("Permission error dry running " +:+ name view +:+
                          ". Copy existing " +:+ path +:+ " file from looker-hub.")
                     w1) in
            match get_file_from_looker_hub path w2 with
            | (Ok _, w3) =>
                yield path (_generate_views out_dir rest v1_name dryrun w3)
            | (Raise ex, w3) =>
                if is_Exception ex
                then
                  let w4 :=
                    snd (print ("Skip generating view for " +:+ path +:+ ": " +:+
                                exc_str ex) w3) in
                  _generate_views out_dir rest v1_name dryrun w4
                else (failed ex, w3)
            end
          else (failed (DryRunError error use_cloud_function msg), w1)
      | (Raise e, w1) => (failed e, w1)
      end
  end.

Fixpoint _generate_explores (out_dir namespace : string)
    (explores : list (string * ArtifactSpec)) (views_dir : string)
    (v1_name : Arg) (w : World) : Generated * World :=
  match explores with
  | [] => (finished, w)
  | (explore_name, defn) :: rest =>
      let step :=
        let* _ := logging_info ("Generating lookml for explore " +:+ explore_name +:+
                                " in " +:+ namespace) in
        let* type := type_of defn in
        let* cls := getitem EXPLORE_TYPES type in
        let* explore := cls explore_name defn views_dir in
        let* dependent_views := get_dependent_views explore in
        let* explores_lookml := explore_to_lookml explore v1_name in
        let path := path_join out_dir (explore_name +:+ ".explore.lkml") in
        let* _ := fun w' =>
          write_text path
            (FILE_HEADER +:+
             or_empty (lkml_dump (snapshot (heap w')
                         (file_lookml namespace dependent_views explores_lookml))))
            w' in
        ret path in
      match step w with
      | (Ok path, w1) =>
          yield path (_generate_explores out_dir namespace rest views_dir v1_name w1)
      | (Raise e, w1) => (failed e, w1)
      end
  end.

Fixpoint _generate_dashboards (dash_dir namespace : string)
    (dashboards : list (string * ArtifactSpec)) (w : World) : Generated * World :=
  match dashboards with
  | [] => (finished, w)
  | (dashboard_name, dashboard_info) :: rest =>
      let step :=
        let* _ := logging_info ("Generating lookml for dashboard " +:+ dashboard_name +:+
                                " in " +:+ namespace) in
        let* type := type_of dashboard_info in
        let* cls := getitem DASHBOARD_TYPES type in
        let* dashboard := cls namespace dashboard_name dashboard_info in
        let* dashboard_lookml := dashboard_to_lookml dashboard in
        let dash_path := path_join dash_dir (dashboard_name +:+ ".dashboard.lookml") in
        let* _ := write_text dash_path (FILE_HEADER +:+ dashboard_lookml) in
        ret dash_path in
      match step w with
      | (Ok dash_path, w1) =>
          yield dash_path (_generate_dashboards dash_dir namespace rest w1)
      | (Raise e, w1) => (failed e, w1)
      end
  end.

(** [list(_get_views_from_dict(views, namespace))]: the generator run to
    its end, as [_lookml] does. *)
Fixpoint _get_views_from_dict (views : list (string * ArtifactSpec))
    (namespace : string) : M (list View) :=
  match views with
  | [] => ret []
  | (view_name, view_info) :: rest =>
      let* type := type_of view_info in
      let* cls := getitem VIEW_TYPES type in
      let* view := cls namespace view_name view_info in
      let* more := _get_views_from_dict rest namespace in
      ret (view :: more)
  end.

(** [for path in generator(items): body(path)], for a generator that takes
    its items in turn and yields at the end of the turn of an item, as
    [_generate_views], [_generate_explores] and [_generate_dashboards] do.
    The generator is suspended at each [yield] while the body of the
    loop runs, so the turn of an item is followed by the body on the path
    it yielded, if it yielded one, and then by the turn of the next item;
    an exception raised in a turn leaves the loop. *)
Fixpoint for_each {A : Type} (generator : list A -> World -> Generated * World)
    (body : string -> M unit) (items : list A) : M unit :=
  match items with
  | [] => ret tt
  | item :: rest =>
      fun w =>
        match generator [item] w with
        | (mkGenerated paths outcome, w1) =>
            match run_body body paths w1 with
            | (Ok _, w2) =>
                match outcome with
                | None => for_each generator body rest w2
                | Some e => (Raise e, w2)
                end
            | (Raise e, w2) => (Raise e, w2)
            end
        end
  end.

(** The bodies of the three loops of [_lookml]. *)
Definition log_path (path : string) : M unit :=
  logging_info ("    ...Generating " +:+ path).

(** [v1_mapping.get(namespace)] *)
Definition v1_name_of (v1_mapping : gmap string string) (namespace : string) : Arg :=
  match v1_mapping !! namespace with
  | Some v1 => AStr v1
  | None => ANone
  end.

(** The body of the loop of [_lookml] for one namespace that passes the
    filter.  Creating directories leaves no trace in the world and is left
    out. *)
Definition generate_namespace (target namespace : string)
    (lookml_objects : NamespaceObjects) (v1_mapping : gmap string string)
    (dryrun : Arg) : M unit :=
  let* _ := logging_info (nl +:+ "Generating namespace " +:+ namespace) in
  let view_dir := path_join (path_join target namespace) "views" in
  let* views := _get_views_from_dict (default [] (ns_views lookml_objects)) namespace in
  let* _ := logging_info "  Generating views" in
  let v1_name := v1_name_of v1_mapping namespace in
  let* _ := for_each (fun views => _generate_views view_dir views v1_name dryrun)
              log_path views in
  let* _ := logging_info "  Generating datagroups" in
  let* _ := generate_datagroups views target namespace dryrun in
  let explore_dir := path_join (path_join target namespace) "explores" in
  let explores := default [] (ns_explores lookml_objects) in
  let* _ := logging_info "  Generating explores" in
  let* _ := for_each (fun explores =>
                        _generate_explores explore_dir namespace explores view_dir v1_name)
              log_path explores in
  let* _ := logging_info "  Generating dashboards" in
  let dashboard_dir := path_join (path_join target namespace) "dashboards" in
  let dashboards := default [] (ns_dashboards lookml_objects) in
  for_each (fun dashboards => _generate_dashboards dashboard_dir namespace dashboards)
    log_path dashboards.

Fixpoint generate_namespaces (target : string)
    (_namespaces : list (string * NamespaceObjects))
    (v1_mapping : gmap string string) (dryrun : Arg)
    (namespace_filter : list string) : M unit :=
  match _namespaces with
  | [] => ret tt
  | (namespace, lookml_objects) :: rest =>
      let* _ :=
        if (length namespace_filter =? 0)%nat || bool_decide (namespace ∈ namespace_filter)
        then generate_namespace target namespace lookml_objects v1_mapping dryrun
        else ret tt in
      generate_namespaces target rest v1_mapping dryrun namespace_filter
  end.

(** [_lookml], given the text of the namespaces file and what
    [yaml.safe_load] makes of it. *)
Definition _lookml (namespaces_content : string)
    (_namespaces : list (string * NamespaceObjects))
    (glean_apps : list (string * string)) (target_dir : string) (dryrun : Arg)
    (namespace_filter : list string) : M unit :=
  let* _ := write_text (path_join target_dir "namespaces.yaml") namespaces_content in
  let v1_mapping := _glean_apps_to_v1_map glean_apps in
  generate_namespaces target_dir _namespaces v1_mapping dryrun namespace_filter.

End Lookml.

(** ** Construction of a histogram view *)

Section FromDict.

(** What the constructor of the class makes of a spec: the dimensions the
    view starts with, its parameters and its percentile labels. *)
Variable initial_dimensions : string -> string -> ArtifactSpec -> list Dimension.
Variable initial_parameters : string -> string -> ArtifactSpec -> list Value.
Variable labels_of : string -> string -> ArtifactSpec -> list string.

(** Modelled from the spec: [from_dict] of the view classes is defined in
    [generator/views], in a module that is not embedded here.  The spec
    makes it a pure construction without I/O, all entities being built
    fresh for each run from the declarative spec: the view gets a list
    object of its own for its dimensions. *)
Definition from_dict (namespace name : string) (spec : ArtifactSpec) : M View :=
  let* dims := new_list (initial_dimensions namespace name spec) in
  ret (mkView name namespace histogram_type (spec_tables spec) dims
         (initial_parameters namespace name spec)
         (labels_of namespace name spec)).

End FromDict.


(** ** Dashboard filters of the declared dimensions *)

(** [sorted(options)] on strings, which Python orders by code point. *)
Definition sorted (options : list string) : list string :=
  merge_sort String.le options.

Record DashboardFilter := mkDashboardFilter {
  f_dimension : string;
  f_default_value : string;
  f_allow_multiple_values : bool;
  f_required : bool;
  f_ui_type : string;
  f_options : list string
}.

(** Modelled from the spec: the dashboard class and its template live in
    [generator/dashboards], in modules that are not embedded here.  By the
    spec a dimension that is not the grouping dimension gets a single-valued
    filter whose default is the declared default, with a dropdown; the
    grouping dimension gets a multi-valued, required filter with the advanced
    UI whose default is all declared options, sorted and joined by commas.
    The listed options and the [required] flag of the single-valued filter
    follow the expected output of [test_dashboard_lookml_group_by_dimension]. *)
Definition dimension_filter (group_by_dimension : option string)
    (dimension : string * DimensionInfo) : DashboardFilter :=
  let '(dim, info) := dimension in
  if bool_decide (group_by_dimension = Some dim)
  then mkDashboardFilter dim (String.concat "," (sorted (di_options info)))
         true true "advanced" (sorted (di_options info))
  else mkDashboardFilter dim (di_default info)
         false true "dropdown_menu" (di_options info).

Definition dimension_filters (t : TableEntry) : list DashboardFilter :=
  map (dimension_filter (t_group_by_dimension t)) (default [] (t_dimensions t)).

(** ** Reading a rendered view *)

Fixpoint assoc (key : string) (kv : list (string * Value)) : option Value :=
  match kv with
  | [] => None
  | (k, v) :: rest => if String.eqb k key then Some v else assoc key rest
  end.

(** The world once view generation has logged that it turns to [view]. *)
Definition view_announced (view : View) (w : World) : World :=
  snd (logging_info
         ("Generating lookml for view " +:+ name view +:+ " in " +:+
          namespace view +:+ " of type " +:+ view_type view) w).

(** The same for an explore and for a dashboard. *)
Definition explore_announced (namespace explore_name : string) (w : World) : World :=
  snd (logging_info ("Generating lookml for explore " +:+ explore_name +:+
                     " in " +:+ namespace) w).

Definition dashboard_announced (namespace dashboard_name : string) (w : World) : World :=
  snd (logging_info ("Generating lookml for dashboard " +:+ dashboard_name +:+
                     " in " +:+ namespace) w).

(** [file_lookml["includes"]] *)
Definition includes_of (file : Value) : list Value :=
  match file with
  | VDict kv =>
      match assoc "includes" kv with
      | Some (VList xs) => xs
      | _ => []
      end
  | _ => []
  end.

(** No reference to a shared list occurs in the value. *)
Fixpoint plain (v : Value) : bool :=
  match v with
  | VNone => true
  | VStr _ => true
  | VList xs => forallb plain xs
  | VDict kv => forallb (fun p => plain (snd p)) kv
  | VRef _ => false
  end.

(** [lookml["views"][0][key]] *)
Definition view_entry (key : string) (lookml : Value) : option Value :=
  match lookml with
  | VDict kv =>
      match assoc "views" kv with
      | Some (VList (VDict fields :: _)) => assoc key fields
      | _ => None
      end
  | _ => None
  end.

(** What a call that returned has rendered: the value it returned, as a
    serialiser sees it in the world the call left. *)
Definition rendered (r : Result Value * World) : option Value :=
  match fst r with
  | Ok v => Some (snapshot (heap (snd r)) v)
  | Raise _ => None
  end.

(** [lookml["views"][0][key]] of what a call has rendered. *)
Definition rendered_entry (key : string) (r : Result Value * World) : option Value :=
  match rendered r with
  | Some v => view_entry key v
  | None => None
  end.

(** The SQL of a percentile measure for a label that holds no newline. *)
Definition percentile_sql (percentile_ci_label : string) : string :=
  nl +:+
  "`moz-fx-data-shared-prod`.udf_js.jackknife_percentile_ci(" +:+ nl +:+
  "    {% parameter percentile_conf %}," +:+ nl +:+
  "    STRUCT(" +:+ nl +:+
  "        mozfun.hist.merge(" +:+ nl +:+
  "          ARRAY_AGG(" +:+ nl +:+
  "            ${TABLE}.histogram IGNORE NULLS" +:+ nl +:+
  "          )" +:+ nl +:+
  "        ).values AS values" +:+ nl +:+
  "    )" +:+ nl +:+
  ")." +:+ percentile_ci_label +:+ nl.

(** ** View classes and what they render *)

(** Modelled from the spec: the view classes are defined in
    [generator/views], in modules that are not embedded here.  By the
    contract of the spec a class has a [from_dict] that is a pure
    construction without I/O, every entity being built fresh for each run
    from the declarative spec.  A class is given by the value of its [type]
    attribute and by what its constructor makes of a spec; its [from_dict]
    gives the view a list object of its own for its dimensions. *)
Record ViewClass := mkViewClass {
  class_type : string;
  class_dimensions : string -> string -> ArtifactSpec -> list Dimension;
  class_parameters : string -> string -> ArtifactSpec -> list Value;
  class_labels : string -> string -> ArtifactSpec -> list string
}.

Definition class_from_dict (cls : ViewClass) (namespace name : string)
    (spec : ArtifactSpec) : M View :=
  let* dims := new_list (class_dimensions cls namespace name spec) in
  ret (mkView name namespace (class_type cls) (spec_tables spec) dims
         (class_parameters cls namespace name spec)
         (class_labels cls namespace name spec)).

(** What a call has rendered, or the exception it raised. *)
Definition rendered_result (r : Result Value * World) : Result Value :=
  match fst r with
  | Ok v => Ok (snapshot (heap (snd r)) v)
  | Raise e => Raise e
  end.

(** Two view objects of the same class with the same attributes, their
    dimensions lists apart. *)
Definition same_attributes (view view' : View) : Prop :=
  name view = name view' /\ namespace view = namespace view' /\
  view_type view = view_type view' /\ tables view = tables view' /\
  parameters view = parameters view' /\
  percentile_ci_labels view = percentile_ci_labels view'.

(** Modelled from the spec: the contract of [to_lookml] for the classes
    that are not embedded here.  By the spec [to_lookml] may perform the one
    introspection round trip of its view and derives what it renders from
    the introspected schema and the declared spec, and no mutable state is
    shared across artifacts: what a call renders, or the exception it
    raises, depends only on the attributes of the view and on the contents
    of its dimensions list. *)
Definition reads_only_view (method : View -> Arg -> Arg -> M Value) : Prop :=
  forall (view view' : View) (a b : Arg) (w w' : World),
    same_attributes view view' ->
    dimensions view < length (heap w) ->
    dimensions view' < length (heap w') ->
    deref (heap w) (dimensions view) = deref (heap w') (dimensions view') ->
    forallb plain (parameters view) = true ->
    rendered_result (method view a b w) = rendered_result (method view' a b w').

Section Rendering.

Variable VIEW_TYPES : gmap string (string -> string -> ArtifactSpec -> M View).
Variable schema_of : Arg -> string -> list (Arg * string) -> Result (list Dimension).
Variable other_to_lookml : View -> Arg -> Arg -> M Value.
Variable lkml_dump : Value -> option string.

(** [VIEW_TYPES[spec["type"]].from_dict(namespace, name, spec)] followed by
    [to_lookml] on the view and by the serialisation of what it returned. *)
Definition render_view (namespace name : string) (spec : ArtifactSpec)
    (a b : Arg) : M (option string) :=
  let* type := type_of spec in
  let* cls := getitem VIEW_TYPES type in
  let* view := cls namespace name spec in
  let* lookml := view_to_lookml schema_of other_to_lookml view a b in
  fun w => (Ok (lkml_dump (snapshot (heap w) lookml)), w).

End Rendering.

(** ** Fixtures of [tests/test_operational_monitoring.py] *)

Module Fixtures.

Definition column (n type : string) : Dimension :=
  mkDimension n [("sql", VStr ("${TABLE}." +:+ n)); ("type", VStr type)].

(** The columns [MockDryRun.get_table_schema] answers with, and the
    histogram columns next to them. *)
Definition mock_schema : list Dimension :=
  [column "client_id" "string"; column "build_id" "string";
   column "cores_count" "string"; column "os" "string";
   column "branch" "string"; column "metric" "string";
   column "statistic" "string"; column "point" "number";
   column "lower" "number"; column "upper" "number";
   column "parameter" "number"; column "probe" "string"].

Definition mock_schema_of (client : Arg) (table : string)
    (calls : list (Arg * string)) : Result (list Dimension) :=
  Ok mock_schema.

(** An introspector that reports no allow-listed column. *)
Definition bare_schema_of (client : Arg) (table : string)
    (calls : list (Arg * string)) : Result (list Dimension) :=
  Ok [column "client_id" "string"].

(** An introspector that is refused. *)
Definition denied_schema_of (client : Arg) (table : string)
    (calls : list (Arg * string)) : Result (list Dimension) :=
  Raise (DryRunError PERMISSION_DENIED true "denied").

Definition declared_dimensions : list (string * DimensionInfo) :=
  [("cores_count", mkDimensionInfo "4" ["4"; "1"]);
   ("os", mkDimensionInfo "Windows" ["Windows"; "Linux"])].

Definition table_entry : TableEntry :=
  mkTableEntry
    (Some "moz-fx-data-shared-prod.operational_monitoring.bug_123_test_statistics")
    (Some "build_id") (Some declared_dimensions) None.

Definition table_entry_grouped : TableEntry :=
  mkTableEntry
    (Some "moz-fx-data-shared-prod.operational_monitoring.bug_123_test_statistics")
    (Some "build_id") (Some declared_dimensions) (Some "os").

Definition empty_world : World := mkWorld [] ∅ [] [] [].

(** A world in which the dimensions list of a view exists at location 0. *)
Definition world0 : World :=
  mkWorld [[column "build_id" "date"]] ∅ [] [] [].

Definition histogram_view : View :=
  mkView "fission_histogram" "operational_monitoring" histogram_type
    [table_entry] 0 [] ["percentile_lower"; "percentile_upper"].

Definition no_tables_view : View :=
  mkView "fission_histogram" "operational_monitoring" histogram_type
    [] 0 [] ["percentile_lower"; "percentile_upper"].

(** A view of another class, rendered by [mock_other_to_lookml]. *)
Definition plain_view (n : string) : View :=
  mkView n "operational_monitoring" "operational_monitoring_view"
    [table_entry] 0 [] [].

(** A stand-in for [lkml.dump] that only tells a view from other values. *)
Definition mock_dump (v : Value) : option string :=
  match view_entry "name" v with
  | Some (VStr n) => Some ("view: " +:+ n)
  | _ => None
  end.

(** The fallback store holds a copy of [cached.view.lkml] only. *)
Definition mock_get_file (path : string) : M unit :=
  if contains "cached" path
  then write_text path "view: cached"
  else raise (PyException "404 Not Found").

(** The other view classes: a view named [empty] renders to the empty
    dictionary, one named [cached] or [lost] is refused by the engine in a
    way that allows the fallback, one named [broken] fails for good. *)
Definition mock_other_to_lookml (view : View) (a b : Arg) : M Value :=
  if String.eqb (name view) "empty" then ret (VDict [])
  else if String.eqb (name view) "cached" || String.eqb (name view) "lost"
  then raise (DryRunError PERMISSION_DENIED true "denied")
  else if String.eqb (name view) "broken"
  then raise (DryRunError BACKEND_ERROR true "backend")
  else ret (VDict [("views", VList [VDict [("name", VStr (name view))]])]).

(** [to_lookml] called twice on the same view object, against the
    introspector of the tests and against the bare one. *)
Definition first_call : Result Value * World :=
  to_lookml mock_schema_of histogram_view ANone (ADryRun false) world0.
Definition second_call : Result Value * World :=
  to_lookml mock_schema_of histogram_view ANone (ADryRun false) (snd first_call).
Definition bare_first_call : Result Value * World :=
  to_lookml bare_schema_of histogram_view ANone (ADryRun false) world0.
Definition bare_second_call : Result Value * World :=
  to_lookml bare_schema_of histogram_view ANone (ADryRun false) (snd bare_first_call).

(** The histogram view of the tests built from its spec and rendered. *)
Definition histogram_spec : ArtifactSpec :=
  mkArtifactSpec (Some histogram_type) [table_entry] [].
Definition histogram_class : ViewClass :=
  mkViewClass histogram_type (fun _ _ _ => [column "build_id" "date"])
    (fun _ _ _ => [VDict [("name", VStr "percentile_conf")]])
    (fun _ _ _ => ["percentile_lower"; "percentile_upper"]).
Definition scalar_class : ViewClass :=
  mkViewClass "operational_monitoring_view" (fun _ _ _ => [column "build_id" "date"])
    (fun _ _ _ => []) (fun _ _ _ => []).
Definition class_VIEW_TYPES : gmap string (string -> string -> ArtifactSpec -> M View) :=
  {[ histogram_type := class_from_dict histogram_class;
     "operational_monitoring_view" := class_from_dict scalar_class ]}.
Definition render_spec (spec : ArtifactSpec) : M (option string) :=
  render_view class_VIEW_TYPES mock_schema_of mock_other_to_lookml mock_dump
    "operational_monitoring" "fission_histogram" spec ANone (ADryRun false).
Definition render_fixture : M (option string) := render_spec histogram_spec.

(** An explore class whose explores depend on two views, a dashboard
    class, and the registries that know them and the histogram view. *)
Definition mock_explore : Explore :=
  mkExplore (ret ["fission"; "fission_histogram"])
    (fun _ => ret (VList [VDict [("name", VStr "fission"); ("hidden", VStr "yes")]])).

Definition mock_EXPLORE_TYPES : gmap string (string -> ArtifactSpec -> string -> M Explore) :=
  {[ "operational_monitoring_explore" := fun _ _ _ => ret mock_explore ]}.

Definition mock_DASHBOARD_TYPES : gmap string (string -> string -> ArtifactSpec -> M Dashboard) :=
  {[ "operational_monitoring_dashboard" :=
       fun _ dashboard_name _ => ret (mkDashboard (ret ("- dashboard: " +:+ dashboard_name))) ]}.

Definition mock_VIEW_TYPES : gmap string (string -> string -> ArtifactSpec -> M View) :=
  {[ histogram_type :=
       from_dict (fun _ _ _ => [column "build_id" "date"]) (fun _ _ _ => [])
         (fun _ _ _ => ["percentile_lower"; "percentile_upper"]) ]}.

Definition explore_spec : ArtifactSpec :=
  mkArtifactSpec (Some "operational_monitoring_explore") [] [].

(** A spec whose discriminator no registry knows. *)
Definition bogus_spec : ArtifactSpec := mkArtifactSpec (Some "bogus_type") [] [].

(** A stand-in for [lkml.dump] that lists the includes of a file. *)
Definition includes_dump (v : Value) : option string :=
  Some (String.concat nl
          (map (fun x => match x with VStr s => "include: " +:+ s | _ => EmptyString end)
               (includes_of v))).

Definition run_explores (explores : list (string * ArtifactSpec)) : Generated * World :=
  _generate_explores mock_EXPLORE_TYPES includes_dump "explores" "operational_monitoring"
    explores "views" ANone empty_world.


Definition run_views (views : list View) : Generated * World :=
  _generate_views mock_dump mock_get_file mock_schema_of mock_other_to_lookml
    "views" views ANone (ADryRun true) world0.

End Fixtures.

(** ** Paths of the generated files *)

(** [out_dir / f"{view.name}.view.lkml"] *)
Definition view_path (out_dir : string) (view : View) : string :=
  path_join out_dir (name view +:+ ".view.lkml").

(** [out_dir / (explore_name + ".explore.lkml")] *)
Definition explore_path (out_dir : string) (explore : string * ArtifactSpec) : string :=
  path_join out_dir (fst explore +:+ ".explore.lkml").

(** [dash_dir / f"{dashboard_name}.dashboard.lookml"] *)
Definition dashboard_path (dash_dir : string) (dashboard : string * ArtifactSpec) : string :=
  path_join dash_dir (fst dashboard +:+ ".dashboard.lookml").

(** The condition of the [except DryRunError] clause of [_generate_views]:
    [e.error == Errors.PERMISSION_DENIED and e.use_cloud_function]. *)
Definition fallback_eligible (e : Exc) : bool :=
  match e with
  | DryRunError error use_cloud_function _ =>
      Errors_eqb error PERMISSION_DENIED && use_cloud_function
  | _ => false
  end.

(** The dictionary that [to_lookml] of the histogram view returns for the
    table [reference_table]. *)
Definition histogram_lookml (self : View) (reference_table : string) : Value :=
  VDict
    [("views",
      VList
        [VDict
           [("name", VStr (name self));
            ("sql_table_name", VStr reference_table);
            ("dimensions", VRef (dimensions self));
            ("parameters", VList (parameters self));
            ("measures",
             VList (map _percentile_measure (percentile_ci_labels self)))]])].

(** ** Further scenarios *)

Module Scenarios.

(** A dashboard class whose dashboards render to the empty text. *)
Definition silent_DASHBOARD_TYPES : gmap string (string -> string -> ArtifactSpec -> M Dashboard) :=
  {[ "silent_dashboard" := fun _ _ _ => ret (mkDashboard (ret EmptyString)) ]}.

Definition silent_spec : ArtifactSpec := mkArtifactSpec (Some "silent_dashboard") [] [].

(** A spec without a [type] key. *)
Definition untyped_spec : ArtifactSpec := mkArtifactSpec None [Fixtures.table_entry] [].

(** The app listings of two applications, one of them listed twice. *)
Definition glean_apps : list (string * string) :=
  [("fenix", "org-mozilla-fenix"); ("burnham", "burnham");
   ("fenix", "org-mozilla-firefox")].

(** Two namespaces: the first holds a histogram view without tables, the
    second one with the table of the tests. *)
Definition broken_namespace : NamespaceObjects :=
  mkNamespaceObjects
    (Some [("fission_histogram", mkArtifactSpec (Some histogram_type) [] [])])
    (Some [("fission", Fixtures.explore_spec)]) None.

Definition good_namespace : NamespaceObjects :=
  mkNamespaceObjects (Some [("fission_histogram", Fixtures.histogram_spec)])
    (Some [("fission", Fixtures.explore_spec)]) None.

Definition run_namespaces (_namespaces : list (string * NamespaceObjects))
    (namespace_filter : list string) : Result unit * World :=
  generate_namespaces Fixtures.mock_VIEW_TYPES Fixtures.mock_EXPLORE_TYPES
    Fixtures.mock_DASHBOARD_TYPES Fixtures.mock_dump Fixtures.mock_get_file
    Fixtures.mock_schema_of Fixtures.mock_other_to_lookml (fun _ _ _ _ => ret tt)
    "looker-hub" _namespaces ∅ (ADryRun false) namespace_filter Fixtures.empty_world.

Definition run_lookml (_namespaces : list (string * NamespaceObjects))
    (namespace_filter : list string) : Result unit * World :=
  _lookml Fixtures.mock_VIEW_TYPES Fixtures.mock_EXPLORE_TYPES
    Fixtures.mock_DASHBOARD_TYPES Fixtures.mock_dump Fixtures.mock_get_file
    Fixtures.mock_schema_of Fixtures.mock_other_to_lookml (fun _ _ _ _ => ret tt)
    "namespaces: text" _namespaces glean_apps "looker-hub" (ADryRun false)
    namespace_filter Fixtures.empty_world.

End Scenarios.

(** * Properties *)

(** ** Heap and string lemmas *)

Lemma deref_alter (h : list (list Dimension)) (l : loc) (f : list Dimension -> list Dimension) :
  l < length h -> deref (alter f l h) l = f (deref h l).
Proof.
  intros Hl. unfold deref.
  destruct (lookup_lt_is_Some_2 h l Hl) as [x Hx].
  rewrite list_lookup_alter_eq, Hx. reflexivity.
Qed.

Lemma deref_alter_ne (h : list (list Dimension)) (l l' : loc) (f : list Dimension -> list Dimension) :
  l <> l' -> deref (alter f l h) l' = deref h l'.
Proof.
  intros Hne. unfold deref. rewrite list_lookup_alter_ne by assumption. reflexivity.
Qed.

Lemma length_alter_heap (h : list (list Dimension)) (l : loc) (f : list Dimension -> list Dimension) :
  length (alter f l h) = length h.
Proof. apply length_alter. Qed.


Lemma string_app_assoc (a b c : string) : a +:+ (b +:+ c) = (a +:+ b) +:+ c.
Proof.
  induction a as [|x a IH]; [reflexivity|].
  change (String x (a +:+ (b +:+ c)) = String x ((a +:+ b) +:+ c)).
  rewrite IH. reflexivity.
Qed.

Lemma has_char_app (c : ascii) (a b : string) :
  has_char c (a +:+ b) = has_char c a || has_char c b.
Proof.
  induction a as [|x a IH]; [reflexivity|].
  change (has_char c (String x (a +:+ b)) = has_char c (String x a) || has_char c b).
  simpl. rewrite IH. apply orb_assoc.
Qed.

Lemma split_lines_nonempty (s : string) : split_lines s <> [].
Proof.
  destruct s as [|c s]; simpl; [discriminate|].
  destruct (Ascii.eqb c newline_char); [discriminate|].
  destruct (split_lines s); discriminate.
Qed.

(** A line without a newline, followed by a newline, is the first line. *)
Lemma split_lines_line (x rest : string) :
  has_char newline_char x = false ->
  split_lines (x +:+ nl +:+ rest) = x :: split_lines rest.
Proof.
  induction x as [|c x IH]; intros Hx.
  - reflexivity.
  - simpl in Hx. apply orb_false_elim in Hx as [Hc Hx].
    change (String c x +:+ nl +:+ rest) with (String c (x +:+ nl +:+ rest)).
    simpl. rewrite Hc, (IH Hx). reflexivity.
Qed.

Lemma split_lines_template (label : string) :
  has_char newline_char label = false ->
  split_lines (percentile_sql_template label) =
    [EmptyString; "                `moz-fx-data-shared-prod`.udf_js.jackknife_percentile_ci(";
     "                    {% parameter percentile_conf %},";
     "                    STRUCT(";
     "                        mozfun.hist.merge(";
     "                          ARRAY_AGG(";
     "                            ${TABLE}.histogram IGNORE NULLS";
     "                          )";
     "                        ).values AS values";
     "                    )";
     "                )." +:+ label;
     "            "].
Proof.
  intros Hl. unfold percentile_sql_template.
  change (nl +:+ ?r) with (EmptyString +:+ nl +:+ r) at 1.
  rewrite !split_lines_line by reflexivity.
  rewrite string_app_assoc.
  rewrite split_lines_line.
  - reflexivity.
  - rewrite has_char_app, Hl. reflexivity.
Qed.

(** For a label on one line, [dedent] cuts the sixteen blanks of the
    template's margin and empties its last line. *)
Lemma dedent_template (label : string) :
  has_char newline_char label = false ->
  dedent (percentile_sql_template label) = percentile_sql label.
Proof.
  intros Hl. unfold dedent. rewrite (split_lines_template label Hl).
  vm_compute. reflexivity.
Qed.

(** ** The histogram view *)

Section HistogramViewProperties.

Variable schema_of : Arg -> string -> list (Arg * string) -> Result (list Dimension).

(** The only list object that [to_lookml] touches, and what it returns,
    when the first table entry names its table and the introspector
    answers. *)
Lemma to_lookml_ok (self : View) (a b : Arg) (w : World)
    (t0 : TableEntry) (more : list TableEntry) (tbl : string) (sch : list Dimension) :
  tables self = t0 :: more ->
  t_table t0 = Some tbl ->
  schema_of a tbl (dryruns w) = Ok sch ->
  to_lookml schema_of self a b w =
    (Ok (VDict
           [("views",
             VList
               [VDict
                  [("name", VStr (name self));
                   ("sql_table_name", VStr tbl);
                   ("dimensions", VRef (dimensions self));
                   ("parameters", VList (parameters self));
                   ("measures",
                    VList (map _percentile_measure (percentile_ci_labels self)))]])]),
     mkWorld
       (alter (fun old => old ++ filter (fun d => dimension_allowed t0 d = true) sch)
              (dimensions self) (heap w))
       (files w) (stdout w) (log w) (dryruns w ++ [(a, tbl)])).
Proof.
  intros Ht Htbl Hsch. unfold to_lookml. rewrite Ht.
  unfold table_of. rewrite Htbl.
  unfold bind, ret, _generate_dimensions, list_extend. simpl.
  rewrite Hsch. reflexivity.
Qed.

(** A successful [to_lookml] has gone through a non-empty table list, a
    named table and an answered introspection. *)
Lemma to_lookml_ok_inv (self : View) (a b : Arg) (w w' : World) (v : Value) :
  to_lookml schema_of self a b w = (Ok v, w') ->
  exists t0 more tbl sch,
    tables self = t0 :: more /\ t_table t0 = Some tbl /\
    schema_of a tbl (dryruns w) = Ok sch.
Proof.
  unfold to_lookml. destruct (tables self) as [|t0 more] eqn:Ht.
  - intros H. discriminate H.
  - unfold table_of, bind, ret, raise, _generate_dimensions. simpl.
    destruct (t_table t0) as [tbl|] eqn:Htbl; [|intros H; discriminate H].
    destruct (schema_of a tbl (dryruns w)) as [sch|e] eqn:Hsch;
      [|intros H; discriminate H].
    intros _. exists t0, more, tbl, sch. auto.
Qed.

Lemma snapshot_percentile_measures (h : list (list Dimension)) (labels : list string) :
  map (snapshot h) (map _percentile_measure labels) = map _percentile_measure labels.
Proof.
  induction labels as [|l labels IH]; [reflexivity|].
  simpl. rewrite IH. reflexivity.
Qed.

Lemma dimension_allowed_spec (t0 : TableEntry) (d : Dimension) :
  dimension_allowed t0 d = true <->
  d_name d ∈ ALLOWED_DIMENSIONS \/ d_name d ∈ map fst (default [] (t_dimensions t0)).
Proof.
  unfold dimension_allowed.
  rewrite orb_true_iff, !bool_decide_eq_true. reflexivity.
Qed.

(** C4: the dimensions of the rendered histogram view are those the view
    had, followed by the introspected ones that pass the allow-list: an
    introspected dimension is among the added ones exactly when its name is
    one of the four allowed names or a key of the declared dimensions of
    the first table entry, whatever else the schema holds. *)
Theorem histogram_dimensions_allow_list (self : View) (a b : Arg) (w : World)
    (t0 : TableEntry) (more : list TableEntry) (tbl : string) (sch : list Dimension) :
  tables self = t0 :: more ->
  t_table t0 = Some tbl ->
  schema_of a tbl (dryruns w) = Ok sch ->
  dimensions self < length (heap w) ->
  exists (v : Value) (w' : World) (added : list Dimension),
    to_lookml schema_of self a b w = (Ok v, w') /\
    view_entry "dimensions" (snapshot (heap w') v) =
      Some (VList (map dimension_dict (deref (heap w) (dimensions self) ++ added))) /\
    (forall d, d ∈ added <->
       d ∈ sch /\
       (d_name d ∈ ["branch"; "probe"; "histogram__VALUES__key"; "histogram__VALUES__value"]
        \/ d_name d ∈ map fst (default [] (t_dimensions t0)))).
Proof.
  intros Ht Htbl Hsch Hl.
  eexists _, _, (filter (fun d => dimension_allowed t0 d = true) sch).
  split; [apply (to_lookml_ok self a b w t0 more tbl sch Ht Htbl Hsch)|].
  split.
  - simpl. rewrite deref_alter by assumption. reflexivity.
  - intros d. rewrite list_elem_of_filter, dimension_allowed_spec.
    unfold ALLOWED_DIMENSIONS. tauto.
Qed.

(** C5: the measures of the rendered histogram view do not depend on the
    introspected schema: they are the percentile measures of the declared
    labels, one per label and in their order, each named after its label,
    of type number, with the dedented jackknife template as SQL; for a
    label on one line this SQL is the fixed text that reads the
    [percentile_conf] parameter, merges the histograms and projects the
    field of the label. *)
Theorem histogram_measures_per_label (self : View) (a b : Arg) (w : World)
    (t0 : TableEntry) (more : list TableEntry) (tbl : string) (sch : list Dimension) :
  tables self = t0 :: more ->
  t_table t0 = Some tbl ->
  schema_of a tbl (dryruns w) = Ok sch ->
  exists (v : Value) (w' : World) (measures : list Value),
    to_lookml schema_of self a b w = (Ok v, w') /\
    view_entry "measures" (snapshot (heap w') v) = Some (VList measures) /\
    length measures = length (percentile_ci_labels self) /\
    (forall i label, percentile_ci_labels self !! i = Some label ->
       measures !! i =
         Some (VDict [("name", VStr label); ("type", VStr "number");
                      ("sql", VStr (dedent (percentile_sql_template label)))]) /\
       (has_char newline_char label = false ->
        dedent (percentile_sql_template label) = percentile_sql label)).
Proof.
  intros Ht Htbl Hsch.
  eexists _, _, (map _percentile_measure (percentile_ci_labels self)).
  split; [apply (to_lookml_ok self a b w t0 more tbl sch Ht Htbl Hsch)|].
  split; [|split].
  - simpl. rewrite snapshot_percentile_measures. reflexivity.
  - apply length_map.
  - intros i label Hi. split.
    + rewrite list_lookup_fmap, Hi. reflexivity.
    + apply dedent_template.
Qed.

End HistogramViewProperties.

(** ** View generation *)

Section ViewGeneration.

Variable lkml_dump : Value -> option string.
Variable get_file_from_looker_hub : string -> M unit.
Variable schema_of : Arg -> string -> list (Arg * string) -> Result (list Dimension).
Variable other_to_lookml : View -> Arg -> Arg -> M Value.

Local Abbreviation generate_views :=
  (_generate_views lkml_dump get_file_from_looker_hub schema_of other_to_lookml).

Lemma after_yields_nil (r : Generated * World) : after_yields [] r = r.
Proof. destruct r as [[ys e] w]. reflexivity. Qed.

(** Views are generated one after the other: the views after a prefix that
    ran to its end are generated in the world that prefix left, and what
    they yield follows what the prefix yielded; a prefix that raised ends
    the run. *)
Lemma generate_views_app (out_dir : string) (before after : list View)
    (v1_name dryrun : Arg) (w : World) :
  generate_views out_dir (before ++ after) v1_name dryrun w =
    match generate_views out_dir before v1_name dryrun w with
    | (mkGenerated ys None, w1) =>
        after_yields ys (generate_views out_dir after v1_name dryrun w1)
    | (mkGenerated ys (Some e), w1) => (mkGenerated ys (Some e), w1)
    end.
Proof.
  revert w.
  induction before as [|view before IH]; intros w.
  - simpl. rewrite after_yields_nil. reflexivity.
  - simpl.
    destruct (view_to_lookml schema_of other_to_lookml view v1_name dryrun
                (set_log _ w)) as [[lookml|exc] w1].
    + destruct (is_empty_dict lookml); [apply IH|].
      rewrite IH.
      match goal with
      | |- context [_generate_views _ _ _ _ ?o before ?x ?y ?z] =>
          destruct (_generate_views lkml_dump get_file_from_looker_hub schema_of
                      other_to_lookml o before x y z) as [[ys [e|]] w2]
      end; reflexivity.
    + destruct exc as [msg|key|error ucf msg|]; try reflexivity.
      destruct (Errors_eqb error PERMISSION_DENIED && ucf); [|reflexivity].
      match goal with
      | |- context [get_file_from_looker_hub ?p ?x] =>
          destruct (get_file_from_looker_hub p x) as [[[]|ex] w3]
      end.
      * rewrite IH.
        match goal with
        | |- context [_generate_views _ _ _ _ ?o before ?x ?y ?z] =>
            destruct (_generate_views lkml_dump get_file_from_looker_hub schema_of
                        other_to_lookml o before x y z) as [[ys [e|]] w2]
        end; reflexivity.
      * destruct (is_Exception ex); [apply IH | reflexivity].
Qed.

Lemma generate_views_after (out_dir : string) (before after : list View)
    (v1_name dryrun : Arg) (w w1 : World) (ys : list string) :
  generate_views out_dir before v1_name dryrun w = (mkGenerated ys None, w1) ->
  generate_views out_dir (before ++ after) v1_name dryrun w =
    after_yields ys (generate_views out_dir after v1_name dryrun w1).
Proof. intros H. rewrite generate_views_app, H. reflexivity. Qed.

Lemma after_yields_snoc (ys : list string) (path : string) (r : Generated * World) :
  after_yields (ys ++ [path]) r = after_yields ys (yield path r).
Proof.
  unfold after_yields, yield. simpl. rewrite <- app_assoc. reflexivity.
Qed.

(** C3: a histogram view whose table list is empty makes [to_lookml] raise
    in the world it was called in, so before any call to the introspector;
    in view generation the exception leaves the generator in the world that
    the earlier views left, with one more line in the log: no file is
    written for the view, not even an empty one, and its path is not
    yielded. *)
Theorem histogram_view_without_tables_raises (out_dir : string)
    (before after : list View) (self : View) (v1_name dryrun : Arg)
    (w w1 : World) (ys : list string) :
  view_type self = histogram_type ->
  tables self = [] ->
  generate_views out_dir before v1_name dryrun w = (mkGenerated ys None, w1) ->
  let e := PyException
             ("Operational Monitoring view " +:+ name self +:+ " has no tables") in
  (forall (a b : Arg) (w0 : World), to_lookml schema_of self a b w0 = (Raise e, w0)) /\
  generate_views out_dir (before ++ self :: after) v1_name dryrun w =
    (mkGenerated ys (Some e), view_announced self w1).
Proof.
  intros Htype Htables Hbefore e.
  assert (Hraise : forall a b w0, to_lookml schema_of self a b w0 = (Raise e, w0)).
  { intros a b w0. unfold to_lookml. rewrite Htables. reflexivity. }
  split; [exact Hraise|].
  rewrite (generate_views_after _ _ _ _ _ _ _ _ Hbefore).
  simpl. unfold view_to_lookml.
  rewrite Htype, String.eqb_refl, Hraise.
  unfold view_announced, after_yields, failed. simpl.
  rewrite Htype, app_nil_r. reflexivity.
Qed.

(** C6: when [to_lookml] raises a dry-run error that is a permission
    denial with the cloud-function flag set, the file is fetched from the
    fallback store, its path is yielded and the remaining views are
    generated; when that fetch raises, the failure is printed, the path is
    not yielded and the remaining views are generated all the same; a
    dry-run error of any other classification leaves view generation. *)
Theorem dry_run_error_fallback (out_dir : string) (before after : list View)
    (view : View) (v1_name dryrun : Arg) (w w1 w2 : World) (ys : list string)
    (error : Errors) (use_cloud_function : bool) (msg : string) :
  generate_views out_dir before v1_name dryrun w = (mkGenerated ys None, w1) ->
  view_to_lookml schema_of other_to_lookml view v1_name dryrun (view_announced view w1) =
    (Raise (DryRunError error use_cloud_function msg), w2) ->
  let path := path_join out_dir (name view +:+ ".view.lkml") in
  let w2' := snd (print ("Permission error dry running " +:+ name view +:+
                         ". Copy existing " +:+ path +:+ " file from looker-hub.")
                    w2) in
  (error = PERMISSION_DENIED -> use_cloud_function = true ->
   forall w3, get_file_from_looker_hub path w2' = (Ok tt, w3) ->
     generate_views out_dir (before ++ view :: after) v1_name dryrun w =
       after_yields (ys ++ [path]) (generate_views out_dir after v1_name dryrun w3)) /\
  (error = PERMISSION_DENIED -> use_cloud_function = true ->
   forall ex w3, get_file_from_looker_hub path w2' = (Raise ex, w3) ->
     is_Exception ex = true ->
     generate_views out_dir (before ++ view :: after) v1_name dryrun w =
       after_yields ys
         (generate_views out_dir after v1_name dryrun
            (snd (print ("Skip generating view for " +:+ path +:+ ": " +:+ exc_str ex)
                    w3)))) /\
  (error <> PERMISSION_DENIED \/ use_cloud_function = false ->
   generate_views out_dir (before ++ view :: after) v1_name dryrun w =
     (mkGenerated ys (Some (DryRunError error use_cloud_function msg)), w2)).
Proof.
  intros Hbefore Hview path w2'.
  rewrite (generate_views_after _ _ _ _ _ _ _ _ Hbefore).
  unfold view_announced in Hview. simpl in *. rewrite Hview.
  fold path. subst w2'. unfold print. simpl.
  split; [|split].
  - intros -> -> w3 Hget. simpl. rewrite Hget.
    rewrite after_yields_snoc. reflexivity.
  - intros -> -> ex w3 Hget Hex. simpl. rewrite Hget, Hex. reflexivity.
  - intros Hother.
    assert (Errors_eqb error PERMISSION_DENIED && use_cloud_function = false) as ->.
    { destruct Hother as [Hne | ->]; [|apply andb_false_r].
      destruct error; [congruence | reflexivity | reflexivity]. }
    unfold after_yields, failed. simpl. rewrite app_nil_r. reflexivity.
Qed.

(** C7: a view whose [to_lookml] returns the empty dictionary gets no file
    and no yielded path: the remaining views are generated in the very
    world [to_lookml] left, and the paths yielded are those of the views
    before and after it. *)
Theorem empty_lookml_writes_no_file (out_dir : string) (before after : list View)
    (view : View) (v1_name dryrun : Arg) (w w1 w2 : World) (ys : list string)
    (lookml : Value) :
  generate_views out_dir before v1_name dryrun w = (mkGenerated ys None, w1) ->
  view_to_lookml schema_of other_to_lookml view v1_name dryrun (view_announced view w1) =
    (Ok lookml, w2) ->
  is_empty_dict lookml = true ->
  generate_views out_dir (before ++ view :: after) v1_name dryrun w =
    after_yields ys (generate_views out_dir after v1_name dryrun w2).
Proof.
  intros Hbefore Hview Hempty.
  rewrite (generate_views_after _ _ _ _ _ _ _ _ Hbefore).
  unfold view_announced in Hview. simpl in *.
  rewrite Hview, Hempty. reflexivity.
Qed.

End ViewGeneration.

(** *** View generation on the fixtures *)

Module ViewGenerationRuns.
Import Fixtures.

(** A view is written, a refused one is fetched from the fallback store, a
    refused one that the store lacks is skipped with a message, an empty
    one is passed over, and the run goes on to the last view. *)
Example run_recovers :
  yielded (fst (run_views [plain_view "scalar"; plain_view "cached"; plain_view "lost";
                     plain_view "empty"; plain_view "later"])) =
    ["views/scalar.view.lkml"; "views/cached.view.lkml"; "views/later.view.lkml"]
  /\ raised (fst (run_views [plain_view "scalar"; plain_view "cached"; plain_view "lost";
                       plain_view "empty"; plain_view "later"])) = None
  /\ stdout (snd (run_views [plain_view "lost"])) =
       ["Permission error dry running lost. Copy existing views/lost.view.lkml file from looker-hub.";
        "Skip generating view for views/lost.view.lkml: 404 Not Found"]
  /\ files (snd (run_views [plain_view "empty"; plain_view "lost"])) = ∅.
Proof. vm_compute. repeat split; reflexivity. Qed.

(** A dry-run error of another kind ends the run before the later views. *)
Example run_aborts :
  fst (run_views [plain_view "scalar"; plain_view "broken"; plain_view "later"]) =
    mkGenerated ["views/scalar.view.lkml"]
      (Some (DryRunError BACKEND_ERROR true "backend")).
Proof. vm_compute. reflexivity. Qed.

End ViewGenerationRuns.

Lemma histogram_view_without_tables_raises_witness :
  let e := PyException "Operational Monitoring view fission_histogram has no tables" in
  (forall (a b : Arg) (w0 : World),
     to_lookml Fixtures.mock_schema_of Fixtures.no_tables_view a b w0 = (Raise e, w0)) /\
  Fixtures.run_views
    ([Fixtures.plain_view "scalar"] ++ Fixtures.no_tables_view :: [Fixtures.plain_view "later"]) =
    (mkGenerated ["views/scalar.view.lkml"] (Some e),
     view_announced Fixtures.no_tables_view
       (snd (Fixtures.run_views [Fixtures.plain_view "scalar"]))).
Proof.
  apply (histogram_view_without_tables_raises
           Fixtures.mock_dump Fixtures.mock_get_file Fixtures.mock_schema_of
           Fixtures.mock_other_to_lookml "views"
           [Fixtures.plain_view "scalar"] [Fixtures.plain_view "later"]
           Fixtures.no_tables_view ANone (ADryRun true) Fixtures.world0).
  - reflexivity.
  - reflexivity.
  - vm_compute. reflexivity.
Defined.

Lemma dry_run_error_fallback_witness :
  Fixtures.run_views
    ([Fixtures.plain_view "scalar"] ++ Fixtures.plain_view "cached" :: [Fixtures.plain_view "later"]) =
    after_yields (["views/scalar.view.lkml"] ++ ["views/cached.view.lkml"])
      (_generate_views Fixtures.mock_dump Fixtures.mock_get_file Fixtures.mock_schema_of
         Fixtures.mock_other_to_lookml "views" [Fixtures.plain_view "later"] ANone
         (ADryRun true)
         (snd (Fixtures.mock_get_file "views/cached.view.lkml"
                 (snd (print "Permission error dry running cached. Copy existing views/cached.view.lkml file from looker-hub."
                         (view_announced (Fixtures.plain_view "cached")
                            (snd (Fixtures.run_views [Fixtures.plain_view "scalar"])))))))).
Proof.
  refine (proj1 (dry_run_error_fallback
           Fixtures.mock_dump Fixtures.mock_get_file Fixtures.mock_schema_of
           Fixtures.mock_other_to_lookml "views"
           [Fixtures.plain_view "scalar"] [Fixtures.plain_view "later"]
           (Fixtures.plain_view "cached") ANone (ADryRun true) Fixtures.world0
           (snd (Fixtures.run_views [Fixtures.plain_view "scalar"]))
           (view_announced (Fixtures.plain_view "cached")
              (snd (Fixtures.run_views [Fixtures.plain_view "scalar"])))
           ["views/scalar.view.lkml"] PERMISSION_DENIED true "denied" _ _)
          eq_refl eq_refl _ _).
  - vm_compute. reflexivity.
  - vm_compute. reflexivity.
  - vm_compute. reflexivity.
Defined.

Lemma empty_lookml_writes_no_file_witness :
  Fixtures.run_views
    ([Fixtures.plain_view "scalar"] ++ Fixtures.plain_view "empty" :: [Fixtures.plain_view "later"]) =
    after_yields ["views/scalar.view.lkml"]
      (_generate_views Fixtures.mock_dump Fixtures.mock_get_file Fixtures.mock_schema_of
         Fixtures.mock_other_to_lookml "views" [Fixtures.plain_view "later"] ANone
         (ADryRun true)
         (view_announced (Fixtures.plain_view "empty")
            (snd (Fixtures.run_views [Fixtures.plain_view "scalar"])))).
Proof.
  apply (empty_lookml_writes_no_file
           Fixtures.mock_dump Fixtures.mock_get_file Fixtures.mock_schema_of
           Fixtures.mock_other_to_lookml "views"
           [Fixtures.plain_view "scalar"] [Fixtures.plain_view "later"]
           (Fixtures.plain_view "empty") ANone (ADryRun true) Fixtures.world0
           (snd (Fixtures.run_views [Fixtures.plain_view "scalar"]))
           (view_announced (Fixtures.plain_view "empty")
              (snd (Fixtures.run_views [Fixtures.plain_view "scalar"])))
           ["views/scalar.view.lkml"] (VDict [])).
  - vm_compute. reflexivity.
  - vm_compute. reflexivity.
  - reflexivity.
Defined.

(** *** The histogram view on the fixtures *)

Lemma histogram_dimensions_allow_list_witness :
  exists (v : Value) (w' : World) (added : list Dimension),
    to_lookml Fixtures.mock_schema_of Fixtures.histogram_view ANone (ADryRun false)
      Fixtures.world0 = (Ok v, w') /\
    view_entry "dimensions" (snapshot (heap w') v) =
      Some (VList (map dimension_dict
                     (deref (heap Fixtures.world0) (dimensions Fixtures.histogram_view)
                      ++ added))) /\
    (forall d, d ∈ added <->
       d ∈ Fixtures.mock_schema /\
       (d_name d ∈ ["branch"; "probe"; "histogram__VALUES__key"; "histogram__VALUES__value"]
        \/ d_name d ∈ map fst (default [] (t_dimensions Fixtures.table_entry)))).
Proof.
  apply (histogram_dimensions_allow_list Fixtures.mock_schema_of Fixtures.histogram_view
           ANone (ADryRun false) Fixtures.world0 Fixtures.table_entry []
           "moz-fx-data-shared-prod.operational_monitoring.bug_123_test_statistics"
           Fixtures.mock_schema).
  - reflexivity.
  - reflexivity.
  - reflexivity.
  - simpl. lia.
Defined.

(** Of the twelve columns of the fixture, the declared [cores_count] and
    [os] and the allowed [branch] and [probe] are added, in schema order. *)
Example histogram_dimensions_on_fixture :
  rendered_entry "dimensions" Fixtures.first_call =
    Some (VList (map dimension_dict
                   [Fixtures.column "build_id" "date";
                    Fixtures.column "cores_count" "string";
                    Fixtures.column "os" "string";
                    Fixtures.column "branch" "string";
                    Fixtures.column "probe" "string"])).
Proof. vm_compute. reflexivity. Qed.

Lemma histogram_measures_per_label_witness :
  exists (v : Value) (w' : World) (measures : list Value),
    to_lookml Fixtures.mock_schema_of Fixtures.histogram_view ANone (ADryRun false)
      Fixtures.world0 = (Ok v, w') /\
    view_entry "measures" (snapshot (heap w') v) = Some (VList measures) /\
    length measures = length (percentile_ci_labels Fixtures.histogram_view) /\
    (forall i label, percentile_ci_labels Fixtures.histogram_view !! i = Some label ->
       measures !! i =
         Some (VDict [("name", VStr label); ("type", VStr "number");
                      ("sql", VStr (dedent (percentile_sql_template label)))]) /\
       (has_char newline_char label = false ->
        dedent (percentile_sql_template label) = percentile_sql label)).
Proof.
  apply (histogram_measures_per_label Fixtures.mock_schema_of Fixtures.histogram_view
           ANone (ADryRun false) Fixtures.world0 Fixtures.table_entry []
           "moz-fx-data-shared-prod.operational_monitoring.bug_123_test_statistics"
           Fixtures.mock_schema).
  - reflexivity.
  - reflexivity.
  - reflexivity.
Defined.

(** ** Calling [to_lookml] twice on one view object *)

Section HistogramViewTwice.

Variable schema_of : Arg -> string -> list (Arg * string) -> Result (list Dimension).

Lemma alter_app_nil (h : list (list Dimension)) (l : loc) :
  alter (fun old => old ++ []) l h = h.
Proof. apply list_alter_id. intros x. apply app_nil_r. Qed.

(** C10, amended: with an introspector that gives the same answer to both
    calls, two calls of [to_lookml] on one view object return the same
    dictionary, whose dimensions are the one shared list; the first call
    renders the dimensions the view had followed by the allow-listed
    introspected ones, the second call renders them with the allow-listed
    ones once more; the two renderings differ exactly when at least one
    introspected dimension passes the allow-list. *)
Theorem to_lookml_twice_extends_in_place (self : View) (a b : Arg) (w : World)
    (t0 : TableEntry) (more : list TableEntry) (tbl : string) (sch : list Dimension) :
  tables self = t0 :: more ->
  t_table t0 = Some tbl ->
  (forall calls, schema_of a tbl calls = Ok sch) ->
  dimensions self < length (heap w) ->
  let old := deref (heap w) (dimensions self) in
  let added := filter (fun d => dimension_allowed t0 d = true) sch in
  let first := to_lookml schema_of self a b w in
  let second := to_lookml schema_of self a b (snd first) in
  (exists v, fst first = Ok v /\ fst second = Ok v) /\
  rendered_entry "dimensions" first =
    Some (VList (map dimension_dict (old ++ added))) /\
  rendered_entry "dimensions" second =
    Some (VList (map dimension_dict (old ++ added ++ added))) /\
  (rendered second <> rendered first <-> added <> []).
Proof.
  intros Ht Htbl Hsch Hl old added first second.
  assert (H1 := to_lookml_ok schema_of self a b w t0 more tbl sch Ht Htbl (Hsch _)).
  fold added in H1. fold first in H1.
  assert (H2 := to_lookml_ok schema_of self a b (snd first) t0 more tbl sch
                  Ht Htbl (Hsch _)).
  fold added in H2. fold second in H2.
  rewrite H1 in H2. simpl in H2.
  assert (Hd1 : rendered_entry "dimensions" first =
                Some (VList (map dimension_dict (old ++ added)))).
  { unfold rendered_entry, rendered. rewrite H1. simpl.
    rewrite deref_alter by assumption. reflexivity. }
  assert (Hd2 : rendered_entry "dimensions" second =
                Some (VList (map dimension_dict (old ++ added ++ added)))).
  { unfold rendered_entry, rendered. rewrite H2. simpl.
    rewrite deref_alter by (rewrite length_alter; assumption).
    rewrite deref_alter by assumption.
    fold old. rewrite <- app_assoc. reflexivity. }
  split; [|split; [exact Hd1 | split; [exact Hd2|]]].
  - eexists. rewrite H1, H2. split; reflexivity.
  - split.
    + intros Hne Hnil. apply Hne.
      unfold rendered. rewrite H1, H2. simpl.
      rewrite Hnil, !alter_app_nil. reflexivity.
    + intros Hne Heq.
      unfold rendered_entry in Hd1, Hd2. rewrite Heq, Hd1 in Hd2.
      injection Hd2 as Hd2. apply (f_equal length) in Hd2.
      rewrite !length_map, !length_app in Hd2.
      destruct added as [|d added']; [congruence|]. simpl in Hd2. lia.
Qed.

End HistogramViewTwice.

(** A schema without any allow-listed column: both calls render the same
    dimensions, so the second output does not differ from the first. *)
Lemma to_lookml_twice_same_output :
  rendered Fixtures.bare_first_call <> None /\
  rendered Fixtures.bare_second_call = rendered Fixtures.bare_first_call.
Proof. vm_compute. split; [discriminate | reflexivity]. Qed.

Lemma to_lookml_twice_extends_in_place_witness :
  rendered_entry "dimensions" Fixtures.second_call =
    Some (VList (map dimension_dict
                   [Fixtures.column "build_id" "date";
                    Fixtures.column "cores_count" "string";
                    Fixtures.column "os" "string";
                    Fixtures.column "branch" "string";
                    Fixtures.column "probe" "string";
                    Fixtures.column "cores_count" "string";
                    Fixtures.column "os" "string";
                    Fixtures.column "branch" "string";
                    Fixtures.column "probe" "string"])).
Proof.
  exact (proj1 (proj2 (proj2
    (to_lookml_twice_extends_in_place Fixtures.mock_schema_of Fixtures.histogram_view
       ANone (ADryRun false) Fixtures.world0 Fixtures.table_entry []
       "moz-fx-data-shared-prod.operational_monitoring.bug_123_test_statistics"
       Fixtures.mock_schema eq_refl eq_refl (fun _ => eq_refl)
       (le_n 1))))).
Defined.

(** ** Rendering a view from its spec *)



(** [from_dict] is the constructor of a class of histogram type. *)
Lemma from_dict_class
    (initial_dimensions : string -> string -> ArtifactSpec -> list Dimension)
    (initial_parameters : string -> string -> ArtifactSpec -> list Value)
    (labels_of : string -> string -> ArtifactSpec -> list string) :
  from_dict initial_dimensions initial_parameters labels_of =
  class_from_dict
    (mkViewClass histogram_type initial_dimensions initial_parameters labels_of).
Proof. reflexivity. Qed.


Section RenderView.

Variable VIEW_TYPES : gmap string (string -> string -> ArtifactSpec -> M View).
Variable schema_of : Arg -> string -> list (Arg * string) -> Result (list Dimension).
Variable other_to_lookml : View -> Arg -> Arg -> M Value.
Variable lkml_dump : Value -> option string.

Hypothesis fixed_stub :
  forall client table calls calls',
    schema_of client table calls = schema_of client table calls'.




End RenderView.

(** The contract can be kept: the stand-in for the other classes does, it
    reads the name of the view only. *)
Lemma mock_other_reads_only_view : reads_only_view Fixtures.mock_other_to_lookml.
Proof.
  intros view view' a b w w' (Hn & _) _ _ _ _.
  unfold rendered_result, Fixtures.mock_other_to_lookml. rewrite <- Hn.
  destruct (String.eqb (name view) "empty"); [reflexivity|].
  destruct (String.eqb (name view) "cached" || String.eqb (name view) "lost");
    [reflexivity|].
  destruct (String.eqb (name view) "broken"); reflexivity.
Qed.


(** The run on the fixture does render a view, and leaves the list object
    it allocated in the heap; a spec of the other registered class is
    rendered by the method of that class, and a spec whose type is not
    registered is not rendered at all. *)
Example render_view_on_fixture :
  fst (Fixtures.render_fixture Fixtures.empty_world) = Ok (Some "view: fission_histogram")
  /\ length (heap (snd (Fixtures.render_fixture Fixtures.empty_world))) = 1
  /\ dryruns (snd (Fixtures.render_fixture Fixtures.empty_world)) =
       [(ANone, "moz-fx-data-shared-prod.operational_monitoring.bug_123_test_statistics")]
  /\ dryruns (snd (Fixtures.render_spec
                     (mkArtifactSpec (Some "operational_monitoring_view")
                        [Fixtures.table_entry] [])
                     Fixtures.empty_world)) = []
  /\ fst (Fixtures.render_spec Fixtures.bogus_spec Fixtures.empty_world) =
       Raise (KeyError "bogus_type").
Proof. vm_compute. repeat split; reflexivity. Qed.

(** ** Explore generation *)

Lemma string_length_app (a b : string) :
  String.length (a +:+ b) = String.length a + String.length b.
Proof.
  induction a as [|x a IH]; [reflexivity|].
  change (String x a +:+ b) with (String x (a +:+ b)).
  simpl. rewrite IH. reflexivity.
Qed.

Lemma string_app_inj_r (a b s : string) : a +:+ s = b +:+ s -> a = b.
Proof.
  revert b. induction a as [|x a IH]; intros [|y b] H.
  - reflexivity.
  - apply (f_equal String.length) in H.
    rewrite !string_length_app in H. simpl in H. lia.
  - apply (f_equal String.length) in H.
    rewrite !string_length_app in H. simpl in H. lia.
  - change (String x (a +:+ s) = String y (b +:+ s)) in H.
    injection H as -> H. f_equal. apply IH. exact H.
Qed.

(** The include of a view determines the view. *)
Lemma include_of_inj (namespace view view' : string) :
  include_of namespace view = include_of namespace view' -> view = view'.
Proof.
  unfold include_of. intros H.
  do 3 apply (inj (String.append _)) in H.
  apply string_app_inj_r in H. exact H.
Qed.

(** An include has a star only if the namespace or the view has one. *)
Lemma include_of_star (namespace view : string) :
  has_char star_char (include_of namespace view) =
    has_char star_char namespace || has_char star_char view.
Proof.
  unfold include_of. rewrite !has_char_app. simpl.
  rewrite !orb_false_r. reflexivity.
Qed.

Section ExploreGeneration.

Variable EXPLORE_TYPES : gmap string (string -> ArtifactSpec -> string -> M Explore).
Variable lkml_dump : Value -> option string.

Local Abbreviation generate_explores := (_generate_explores EXPLORE_TYPES lkml_dump).

Lemma generate_explores_app (out_dir namespace : string)
    (before after : list (string * ArtifactSpec)) (views_dir : string)
    (v1_name : Arg) (w : World) :
  generate_explores out_dir namespace (before ++ after) views_dir v1_name w =
    match generate_explores out_dir namespace before views_dir v1_name w with
    | (mkGenerated ys None, w1) =>
        after_yields ys (generate_explores out_dir namespace after views_dir v1_name w1)
    | (mkGenerated ys (Some e), w1) => (mkGenerated ys (Some e), w1)
    end.
Proof.
  revert w.
  induction before as [|[explore_name defn] before IH]; intros w.
  - simpl. rewrite after_yields_nil. reflexivity.
  - simpl.
    match goal with
    | |- context [bind ?m ?k w] => destruct (bind m k w) as [[path|e] w1]
    end; [|reflexivity].
    rewrite IH.
    destruct (_generate_explores EXPLORE_TYPES lkml_dump out_dir namespace before
                views_dir v1_name w1) as [[ys [e|]] w2]; reflexivity.
Qed.

(** C8: the file written for an explore holds, under [includes], one entry
    [/looker-hub/{namespace}/views/{view}.view.lkml] for each view that
    [get_dependent_views] returned, in that order, and nothing else: an
    include of a view is there only if the view is a dependent one, and no
    entry has a star unless the namespace or a dependent view is named
    with one. *)
Theorem explore_includes_dependent_views (out_dir namespace : string)
    (before after : list (string * ArtifactSpec)) (explore_name : string)
    (defn : ArtifactSpec) (views_dir : string) (v1_name : Arg)
    (w w1 w2 w3 w4 : World) (ys : list string) (type : string)
    (cls : string -> ArtifactSpec -> string -> M Explore) (explore : Explore)
    (dependent_views : list string) (explores_lookml : Value) :
  generate_explores out_dir namespace before views_dir v1_name w =
    (mkGenerated ys None, w1) ->
  spec_type defn = Some type ->
  EXPLORE_TYPES !! type = Some cls ->
  cls explore_name defn views_dir (explore_announced namespace explore_name w1) =
    (Ok explore, w2) ->
  get_dependent_views explore w2 = (Ok dependent_views, w3) ->
  explore_to_lookml explore v1_name w3 = (Ok explores_lookml, w4) ->
  let path := path_join out_dir (explore_name +:+ ".explore.lkml") in
  let written :=
    snapshot (heap w4) (file_lookml namespace dependent_views explores_lookml) in
  generate_explores out_dir namespace (before ++ (explore_name, defn) :: after)
      views_dir v1_name w =
    after_yields (ys ++ [path])
      (generate_explores out_dir namespace after views_dir v1_name
         (snd (write_text path (FILE_HEADER +:+ or_empty (lkml_dump written)) w4))) /\
  includes_of written =
    map (fun view => VStr (include_of namespace view)) dependent_views /\
  (forall view, VStr (include_of namespace view) ∈ includes_of written ->
                view ∈ dependent_views) /\
  (has_char star_char namespace = false ->
   (forall view, view ∈ dependent_views -> has_char star_char view = false) ->
   forall inc, VStr inc ∈ includes_of written -> has_char star_char inc = false).
Proof.
  intros Hbefore Htype Hcls Hfrom Hdeps Hlookml path written.
  assert (Hinc : includes_of written =
                 map (fun view => VStr (include_of namespace view)) dependent_views).
  { unfold written, file_lookml. simpl. rewrite map_map. reflexivity. }
  split; [|split; [exact Hinc | split]].
  - rewrite generate_explores_app, Hbefore.
    simpl.
    unfold bind, type_of, getitem, logging_info, ret.
    unfold explore_announced, logging_info in Hfrom. simpl in Hfrom.
    rewrite Htype, Hcls, Hfrom, Hdeps, Hlookml. simpl.
    rewrite after_yields_snoc. reflexivity.
  - intros view Hin. rewrite Hinc in Hin.
    apply list_elem_of_fmap in Hin as [view' [Heq Hin]].
    assert (Heq' : include_of namespace view = include_of namespace view')
      by congruence.
    apply include_of_inj in Heq'. subst view'. exact Hin.
  - intros Hns Hviews inc Hin. rewrite Hinc in Hin.
    apply list_elem_of_fmap in Hin as [view [Heq Hin]].
    assert (inc = include_of namespace view) as -> by congruence.
    rewrite include_of_star, Hns, (Hviews view Hin). reflexivity.
Qed.

End ExploreGeneration.

(** *** Explore generation on the fixtures *)

Example explore_file_on_fixture :
  yielded (fst (Fixtures.run_explores [("fission", Fixtures.explore_spec)])) =
    ["explores/fission.explore.lkml"]
  /\ files (snd (Fixtures.run_explores [("fission", Fixtures.explore_spec)]))
       !! "explores/fission.explore.lkml" =
     Some (FILE_HEADER +:+
           "include: /looker-hub/operational_monitoring/views/fission.view.lkml" +:+ nl +:+
           "include: /looker-hub/operational_monitoring/views/fission_histogram.view.lkml").
Proof. vm_compute. split; reflexivity. Qed.

Lemma explore_includes_dependent_views_witness :
  includes_of
    (snapshot (heap Fixtures.empty_world)
       (file_lookml "operational_monitoring" ["fission"; "fission_histogram"]
          (VList [VDict [("name", VStr "fission"); ("hidden", VStr "yes")]]))) =
    [VStr "/looker-hub/operational_monitoring/views/fission.view.lkml";
     VStr "/looker-hub/operational_monitoring/views/fission_histogram.view.lkml"].
Proof.
  refine (proj1 (proj2
    (explore_includes_dependent_views Fixtures.mock_EXPLORE_TYPES Fixtures.includes_dump
       "explores" "operational_monitoring" [] [] "fission" Fixtures.explore_spec
       "views" ANone Fixtures.empty_world Fixtures.empty_world
       (explore_announced "operational_monitoring" "fission" Fixtures.empty_world)
       (explore_announced "operational_monitoring" "fission" Fixtures.empty_world)
       (explore_announced "operational_monitoring" "fission" Fixtures.empty_world)
       [] "operational_monitoring_explore" (fun _ _ _ => ret Fixtures.mock_explore)
       Fixtures.mock_explore ["fission"; "fission_histogram"]
       (VList [VDict [("name", VStr "fission"); ("hidden", VStr "yes")]])
       _ _ _ _ _ _))); reflexivity.
Defined.

(** ** Dispatch on the type discriminator *)

Section Dispatch.

Variable VIEW_TYPES : gmap string (string -> string -> ArtifactSpec -> M View).
Variable EXPLORE_TYPES : gmap string (string -> ArtifactSpec -> string -> M Explore).
Variable DASHBOARD_TYPES : gmap string (string -> string -> ArtifactSpec -> M Dashboard).
Variable lkml_dump : Value -> option string.
Variable get_file_from_looker_hub : string -> M unit.
Variable schema_of : Arg -> string -> list (Arg * string) -> Result (list Dimension).
Variable other_to_lookml : View -> Arg -> Arg -> M Value.
Variable generate_datagroups : list View -> string -> string -> Arg -> M unit.

Lemma get_views_from_dict_app (before after : list (string * ArtifactSpec))
    (namespace : string) (w : World) :
  _get_views_from_dict VIEW_TYPES (before ++ after) namespace w =
    match _get_views_from_dict VIEW_TYPES before namespace w with
    | (Ok vs, w1) =>
        match _get_views_from_dict VIEW_TYPES after namespace w1 with
        | (Ok vs', w2) => (Ok (vs ++ vs'), w2)
        | (Raise e, w2) => (Raise e, w2)
        end
    | (Raise e, w1) => (Raise e, w1)
    end.
Proof.
  revert w. induction before as [|[view_name view_info] before IH]; intros w.
  - simpl. unfold ret.
    destruct (_get_views_from_dict VIEW_TYPES after namespace w) as [[vs'|e] w2];
      reflexivity.
  - simpl. unfold bind.
    destruct (type_of view_info w) as [[type|e] w1]; [|reflexivity].
    destruct (getitem VIEW_TYPES type w1) as [[cls|e] w2]; [|reflexivity].
    destruct (cls namespace view_name view_info w2) as [[view|e] w3]; [|reflexivity].
    rewrite IH.
    destruct (_get_views_from_dict VIEW_TYPES before namespace w3) as [[vs|e] w4];
      [|reflexivity].
    unfold ret. simpl.
    destruct (_get_views_from_dict VIEW_TYPES after namespace w4) as [[vs'|e] w5];
      reflexivity.
Qed.

Lemma generate_dashboards_app (dash_dir namespace : string)
    (before after : list (string * ArtifactSpec)) (w : World) :
  _generate_dashboards DASHBOARD_TYPES dash_dir namespace (before ++ after) w =
    match _generate_dashboards DASHBOARD_TYPES dash_dir namespace before w with
    | (mkGenerated ys None, w1) =>
        after_yields ys (_generate_dashboards DASHBOARD_TYPES dash_dir namespace after w1)
    | (mkGenerated ys (Some e), w1) => (mkGenerated ys (Some e), w1)
    end.
Proof.
  revert w. induction before as [|[dashboard_name dashboard_info] before IH]; intros w.
  - simpl. rewrite after_yields_nil. reflexivity.
  - simpl.
    match goal with
    | |- context [bind ?m ?k w] => destruct (bind m k w) as [[path|e] w1]
    end; [|reflexivity].
    rewrite IH.
    destruct (_generate_dashboards DASHBOARD_TYPES dash_dir namespace before w1)
      as [[ys [e|]] w2]; reflexivity.
Qed.


End Dispatch.



(** ** Dashboard filters *)

Lemma sorted_Sorted (options : list string) : Sorted String.le (sorted options).
Proof. apply Sorted_merge_sort. apply _. Qed.

Lemma sorted_Permutation (options : list string) : sorted options ≡ₚ options.
Proof. apply merge_sort_Permutation. Qed.

(** C1: the filter of a declared dimension stands at the place of the
    dimension; without a grouping dimension it is single-valued and its
    default is the declared default; the filter of the grouping dimension is
    multi-valued, required, with the advanced UI, and its default is the
    declared options in ascending order, joined by commas. *)
Theorem dimension_filter_by_grouping (t : TableEntry) (i : nat) (dim : string)
    (info : DimensionInfo) :
  default [] (t_dimensions t) !! i = Some (dim, info) ->
  exists f : DashboardFilter,
    dimension_filters t !! i = Some f /\
    f_dimension f = dim /\
    (t_group_by_dimension t = None ->
     f_allow_multiple_values f = false /\
     f_default_value f = di_default info) /\
    (t_group_by_dimension t = Some dim ->
     f_allow_multiple_values f = true /\
     f_required f = true /\
     f_ui_type f = "advanced" /\
     f_default_value f = String.concat "," (sorted (di_options info)) /\
     Sorted String.le (sorted (di_options info)) /\
     sorted (di_options info) ≡ₚ di_options info).
Proof.
  intros Hi. exists (dimension_filter (t_group_by_dimension t) (dim, info)).
  split; [|split; [|split]].
  - unfold dimension_filters. rewrite list_lookup_fmap, Hi. reflexivity.
  - simpl. case_bool_decide; reflexivity.
  - intros Hnone. rewrite Hnone. simpl. split; reflexivity.
  - intros Hsome. rewrite Hsome. simpl.
    rewrite bool_decide_eq_true_2 by reflexivity. simpl.
    repeat split; auto using sorted_Sorted, sorted_Permutation.
Qed.

Lemma dimension_filter_by_grouping_witness :
  exists f : DashboardFilter,
    dimension_filters Fixtures.table_entry_grouped !! 1 = Some f /\
    f_dimension f = "os" /\
    (t_group_by_dimension Fixtures.table_entry_grouped = None ->
     f_allow_multiple_values f = false /\
     f_default_value f = "Windows") /\
    (t_group_by_dimension Fixtures.table_entry_grouped = Some "os" ->
     f_allow_multiple_values f = true /\
     f_required f = true /\
     f_ui_type f = "advanced" /\
     f_default_value f = String.concat "," (sorted ["Windows"; "Linux"]) /\
     Sorted String.le (sorted ["Windows"; "Linux"]) /\
     sorted ["Windows"; "Linux"] ≡ₚ ["Windows"; "Linux"]).
Proof.
  apply (dimension_filter_by_grouping Fixtures.table_entry_grouped 1 "os"
           (mkDimensionInfo "Windows" ["Windows"; "Linux"])).
  reflexivity.
Defined.

(** The filters that [test_dashboard_lookml] and
    [test_dashboard_lookml_group_by_dimension] expect for the two declared
    dimensions: grouping by [os] turns its default from [Windows] into
    [Linux,Windows], which is not the declared order of the options. *)
Example filters_without_grouping :
  dimension_filters Fixtures.table_entry =
    [mkDashboardFilter "cores_count" "4" false true "dropdown_menu" ["4"; "1"];
     mkDashboardFilter "os" "Windows" false true "dropdown_menu" ["Windows"; "Linux"]].
Proof. vm_compute. reflexivity. Qed.

Example filters_with_grouping :
  dimension_filters Fixtures.table_entry_grouped =
    [mkDashboardFilter "cores_count" "4" false true "dropdown_menu" ["4"; "1"];
     mkDashboardFilter "os" "Linux,Windows" true true "advanced" ["Linux"; "Windows"]]
  /\ String.concat "," ["Windows"; "Linux"] <> "Linux,Windows".
Proof. vm_compute. split; [reflexivity | discriminate]. Qed.

(** * Further properties of the generation pipeline *)

(** ** What view generation yields and how it ends *)

Section ViewGenerationInvariants.

Variable lkml_dump : Value -> option string.
Variable get_file_from_looker_hub : string -> M unit.
Variable schema_of : Arg -> string -> list (Arg * string) -> Result (list Dimension).
Variable other_to_lookml : View -> Arg -> Arg -> M Value.

Local Abbreviation generate_views :=
  (_generate_views lkml_dump get_file_from_looker_hub schema_of other_to_lookml).

Lemma yielded_yield (path : string) (r : Generated * World) :
  yielded (fst (yield path r)) = path :: yielded (fst r).
Proof. reflexivity. Qed.

Lemma raised_yield (path : string) (r : Generated * World) :
  raised (fst (yield path r)) = raised (fst r).
Proof. reflexivity. Qed.

(** X1: the paths that view generation yields are paths of the views it was
    given, in the order of the views and at most once per view: a view that
    is skipped leaves a gap, and no other path is ever yielded. *)
Theorem generate_views_yields_sublist (out_dir : string) (views : list View)
    (v1_name dryrun : Arg) (w : World) :
  yielded (fst (generate_views out_dir views v1_name dryrun w))
    `sublist_of` map (view_path out_dir) views.
Proof.
  revert w. induction views as [|view views IH]; intros w.
  - simpl. constructor.
  - simpl.
    destruct (view_to_lookml schema_of other_to_lookml view v1_name dryrun
                (set_log _ w)) as [[lookml|exc] w1].
    + destruct (is_empty_dict lookml).
      * apply sublist_cons, IH.
      * rewrite yielded_yield. apply sublist_skip, IH.
    + destruct exc as [msg|key|error ucf msg|]; simpl; try apply sublist_nil_l.
      destruct (Errors_eqb error PERMISSION_DENIED && ucf); [|apply sublist_nil_l].
      match goal with
      | |- context [get_file_from_looker_hub ?p ?x] =>
          destruct (get_file_from_looker_hub p x) as [[[]|ex] w3]
      end.
      * rewrite yielded_yield. apply sublist_skip, IH.
      * destruct (is_Exception ex); [apply sublist_cons, IH | apply sublist_nil_l].
Qed.

(** X2: an exception that ends view generation is never a dry-run error
    that is a permission denial with the cloud-function flag set: those are
    always handled inside the loop. *)
Theorem generate_views_never_raises_eligible (out_dir : string) (views : list View)
    (v1_name dryrun : Arg) (w : World) (e : Exc) :
  raised (fst (generate_views out_dir views v1_name dryrun w)) = Some e ->
  fallback_eligible e = false.
Proof.
  revert w. induction views as [|view views IH]; intros w.
  - simpl. discriminate.
  - simpl.
    destruct (view_to_lookml schema_of other_to_lookml view v1_name dryrun
                (set_log _ w)) as [[lookml|exc] w1].
    + destruct (is_empty_dict lookml); [apply IH|].
      rewrite raised_yield. apply IH.
    + destruct exc as [msg|key|error ucf msg|]; simpl;
        try (intros H; injection H as <-; reflexivity).
      destruct (Errors_eqb error PERMISSION_DENIED && ucf) eqn:Hel.
      * match goal with
        | |- context [get_file_from_looker_hub ?p ?x] =>
            destruct (get_file_from_looker_hub p x) as [[[]|ex] w3]
        end.
        -- rewrite raised_yield. apply IH.
        -- destruct (is_Exception ex) eqn:Hex; [apply IH|].
           simpl. intros H. injection H as <-.
           destruct ex; simpl in *; try discriminate. reflexivity.
      * simpl. intros H. injection H as <-. simpl. exact Hel.
Qed.

End ViewGenerationInvariants.

Lemma generate_views_never_raises_eligible_witness :
  fallback_eligible (DryRunError BACKEND_ERROR true "backend") = false.
Proof.
  apply (generate_views_never_raises_eligible Fixtures.mock_dump Fixtures.mock_get_file
           Fixtures.mock_schema_of Fixtures.mock_other_to_lookml "views"
           [Fixtures.plain_view "scalar"; Fixtures.plain_view "broken";
            Fixtures.plain_view "later"]
           ANone (ADryRun true) Fixtures.world0).
  vm_compute. reflexivity.
Defined.

Section ViewGenerationSteps.

Variable lkml_dump : Value -> option string.
Variable get_file_from_looker_hub : string -> M unit.
Variable schema_of : Arg -> string -> list (Arg * string) -> Result (list Dimension).
Variable other_to_lookml : View -> Arg -> Arg -> M Value.

Local Abbreviation generate_views :=
  (_generate_views lkml_dump get_file_from_looker_hub schema_of other_to_lookml).

(** X3: generating the views of a list in two parts is generating the
    first part and then, if it ran to its end, the second part in the world
    the first part left, the paths of the second following those of the
    first; if the first part raised, the second part is not touched. *)
Theorem generate_views_composes (out_dir : string) (first second : list View)
    (v1_name dryrun : Arg) (w : World) :
  generate_views out_dir (first ++ second) v1_name dryrun w =
    match generate_views out_dir first v1_name dryrun w with
    | (mkGenerated ys None, w1) =>
        after_yields ys (generate_views out_dir second v1_name dryrun w1)
    | (mkGenerated ys (Some e), w1) => (mkGenerated ys (Some e), w1)
    end.
Proof. apply generate_views_app. Qed.

(** X4: a histogram view whose first table entry names a table that the
    introspector answers for is always written: its file holds the header
    followed by the serialised view, its path is yielded, its dimensions
    list is extended, and the one introspection call that is made carries
    the v1 name where the client is expected. *)
Theorem generate_views_histogram_step (out_dir : string) (self : View)
    (rest : list View) (v1_name dryrun : Arg) (w : World)
    (t0 : TableEntry) (more : list TableEntry) (tbl : string) (sch : list Dimension) :
  view_type self = histogram_type ->
  tables self = t0 :: more ->
  t_table t0 = Some tbl ->
  schema_of v1_name tbl (dryruns w) = Ok sch ->
  let heap' :=
    alter (fun old => old ++ filter (fun d => dimension_allowed t0 d = true) sch)
      (dimensions self) (heap w) in
  let text :=
    FILE_HEADER +:+ or_empty (lkml_dump (snapshot heap' (histogram_lookml self tbl))) in
  generate_views out_dir (self :: rest) v1_name dryrun w =
    yield (view_path out_dir self)
      (generate_views out_dir rest v1_name dryrun
         (mkWorld heap'
            (<[view_path out_dir self := text]> (files w))
            (stdout w)
            (log w ++ ["Generating lookml for view " +:+ name self +:+ " in " +:+
                       namespace self +:+ " of type " +:+ view_type self])
            (dryruns w ++ [(v1_name, tbl)]))).
Proof.
  intros Htype Ht Htbl Hsch heap' text.
  assert (Heq : String.eqb (view_type self) histogram_type = true)
    by (rewrite Htype; apply String.eqb_refl).
  pose proof (to_lookml_ok schema_of self v1_name dryrun (view_announced self w)
                t0 more tbl sch Ht Htbl Hsch) as Hok.
  unfold view_announced in Hok. simpl in Hok.
  simpl. unfold view_to_lookml. rewrite Heq, Hok. reflexivity.
Qed.

(** X5: a list of histogram views is generated in the same way whatever
    dry-run factory is passed along: the histogram view takes the v1 name
    for its client and does not read its second argument. *)
Theorem generate_views_histogram_ignores_dryrun (out_dir : string) (views : list View)
    (v1_name dryrun dryrun' : Arg) (w : World) :
  Forall (fun view => view_type view = histogram_type) views ->
  generate_views out_dir views v1_name dryrun w =
  generate_views out_dir views v1_name dryrun' w.
Proof.
  intros Hall. revert w. induction Hall as [|view views Htype Hall IH]; intros w.
  - reflexivity.
  - simpl. unfold view_to_lookml. rewrite Htype, String.eqb_refl.
    change (to_lookml schema_of view v1_name dryrun')
      with (to_lookml schema_of view v1_name dryrun).
    destruct (to_lookml schema_of view v1_name dryrun (set_log _ w))
      as [[lookml|exc] w1].
    + destruct (is_empty_dict lookml); [apply IH|]. rewrite IH. reflexivity.
    + destruct exc as [msg|key|error ucf msg|]; try reflexivity.
      destruct (Errors_eqb error PERMISSION_DENIED && ucf); [|reflexivity].
      match goal with
      | |- context [get_file_from_looker_hub ?p ?x] =>
          destruct (get_file_from_looker_hub p x) as [[[]|ex] w3]
      end.
      * rewrite IH. reflexivity.
      * destruct (is_Exception ex); [apply IH | reflexivity].
Qed.

(** X6: when [lkml.dump] returns [None] for a view that is not the empty
    dictionary, the file written for the view is not empty: it holds the
    header, and its path is yielded. *)
Theorem generate_views_dump_none_writes_header (out_dir : string)
    (before after : list View) (view : View) (v1_name dryrun : Arg)
    (w w1 w2 : World) (ys : list string) (lookml : Value) :
  generate_views out_dir before v1_name dryrun w = (mkGenerated ys None, w1) ->
  view_to_lookml schema_of other_to_lookml view v1_name dryrun (view_announced view w1) =
    (Ok lookml, w2) ->
  is_empty_dict lookml = false ->
  lkml_dump (snapshot (heap w2) lookml) = None ->
  generate_views out_dir (before ++ view :: after) v1_name dryrun w =
    after_yields (ys ++ [view_path out_dir view])
      (generate_views out_dir after v1_name dryrun
         (set_files (<[view_path out_dir view := FILE_HEADER]> (files w2)) w2)).
Proof.
  intros Hbefore Hview Hne Hdump.
  rewrite (generate_views_after _ _ _ _ _ _ _ _ _ _ _ _ Hbefore).
  unfold view_announced in Hview. simpl in *.
  rewrite Hview, Hne, Hdump. rewrite after_yields_snoc. reflexivity.
Qed.

End ViewGenerationSteps.

Lemma generate_views_histogram_step_witness :
  files (snd (Fixtures.run_views [Fixtures.histogram_view]))
    !! "views/fission_histogram.view.lkml" =
    Some (FILE_HEADER +:+ "view: fission_histogram")
  /\ dryruns (snd (Fixtures.run_views [Fixtures.histogram_view])) =
       [(ANone, "moz-fx-data-shared-prod.operational_monitoring.bug_123_test_statistics")]
  /\ yielded (fst (Fixtures.run_views [Fixtures.histogram_view])) =
       ["views/fission_histogram.view.lkml"].
Proof.
  unfold Fixtures.run_views.
  rewrite (generate_views_histogram_step Fixtures.mock_dump Fixtures.mock_get_file
             Fixtures.mock_schema_of Fixtures.mock_other_to_lookml "views"
             Fixtures.histogram_view [] ANone (ADryRun true) Fixtures.world0
             Fixtures.table_entry []
             "moz-fx-data-shared-prod.operational_monitoring.bug_123_test_statistics"
             Fixtures.mock_schema eq_refl eq_refl eq_refl eq_refl).
  vm_compute. repeat split; reflexivity.
Defined.

Lemma generate_views_histogram_ignores_dryrun_witness :
  _generate_views Fixtures.mock_dump Fixtures.mock_get_file Fixtures.mock_schema_of
    Fixtures.mock_other_to_lookml "views"
    [Fixtures.histogram_view; Fixtures.no_tables_view] ANone (ADryRun true)
    Fixtures.world0 =
  _generate_views Fixtures.mock_dump Fixtures.mock_get_file Fixtures.mock_schema_of
    Fixtures.mock_other_to_lookml "views"
    [Fixtures.histogram_view; Fixtures.no_tables_view] ANone ANone
    Fixtures.world0.
Proof.
  apply (generate_views_histogram_ignores_dryrun Fixtures.mock_dump
           Fixtures.mock_get_file Fixtures.mock_schema_of
           Fixtures.mock_other_to_lookml).
  repeat constructor.
Defined.

Lemma generate_views_dump_none_writes_header_witness :
  _generate_views (fun _ => None) Fixtures.mock_get_file Fixtures.mock_schema_of
    Fixtures.mock_other_to_lookml "views"
    ([] ++ Fixtures.plain_view "scalar" :: []) ANone (ADryRun true) Fixtures.world0 =
    after_yields ([] ++ ["views/scalar.view.lkml"])
      (finished,
       set_files (<["views/scalar.view.lkml" := FILE_HEADER]> ∅)
         (view_announced (Fixtures.plain_view "scalar") Fixtures.world0)).
Proof.
  apply (generate_views_dump_none_writes_header (fun _ => None) Fixtures.mock_get_file
           Fixtures.mock_schema_of Fixtures.mock_other_to_lookml "views"
           [] [] (Fixtures.plain_view "scalar") ANone (ADryRun true)
           Fixtures.world0 Fixtures.world0
           (view_announced (Fixtures.plain_view "scalar") Fixtures.world0) []
           (VDict [("views", VList [VDict [("name", VStr "scalar")]])]));
    reflexivity.
Defined.

(** ** What explore and dashboard generation yield *)

Section ExploreDashboardInvariants.

Variable EXPLORE_TYPES : gmap string (string -> ArtifactSpec -> string -> M Explore).
Variable DASHBOARD_TYPES : gmap string (string -> string -> ArtifactSpec -> M Dashboard).
Variable lkml_dump : Value -> option string.

Local Ltac ends_early :=
  simpl; split; [reflexivity | split; [intros H; discriminate H | intros _; lia]].

(** X7: explore generation skips nothing: the paths it yields are those of
    the first explores of the mapping, one each and in order, up to the
    first explore that raises; when no exception ends it, every explore has
    its path yielded. *)
Theorem generate_explores_yields_prefix (out_dir namespace : string)
    (explores : list (string * ArtifactSpec)) (views_dir : string)
    (v1_name : Arg) (w : World) :
  let r := fst (_generate_explores EXPLORE_TYPES lkml_dump out_dir namespace explores
                  views_dir v1_name w) in
  yielded r = map (explore_path out_dir) (take (length (yielded r)) explores) /\
  (raised r = None -> length (yielded r) = length explores) /\
  (raised r <> None -> length (yielded r) < length explores).
Proof.
  revert w. induction explores as [|[explore_name defn] explores IH]; intros w.
  - simpl. split; [reflexivity | split; [reflexivity | congruence]].
  - simpl. unfold bind, logging_info, type_of, getitem, ret, raise, write_text.
    destruct (spec_type defn) as [type|];
      [|ends_early].
    destruct (EXPLORE_TYPES !! type) as [cls|];
      [|ends_early].
    destruct (cls explore_name defn views_dir _) as [[explore|e] w2];
      [|ends_early].
    destruct (get_dependent_views explore w2) as [[deps|e] w3];
      [|ends_early].
    destruct (explore_to_lookml explore v1_name w3) as [[ex|e] w4];
      [|ends_early].
    rewrite yielded_yield, raised_yield.
    match goal with
    | |- context [_generate_explores _ _ _ _ explores _ _ ?x] =>
        destruct (IH x) as (Hy & Hnone & Hsome)
    end.
    simpl in *. repeat split.
    + f_equal. exact Hy.
    + intros H. f_equal. apply Hnone, H.
    + intros H. apply Hsome in H. lia.
Qed.

(** X8: the same holds for dashboard generation. *)
Theorem generate_dashboards_yields_prefix (dash_dir namespace : string)
    (dashboards : list (string * ArtifactSpec)) (w : World) :
  let r := fst (_generate_dashboards DASHBOARD_TYPES dash_dir namespace dashboards w) in
  yielded r = map (dashboard_path dash_dir) (take (length (yielded r)) dashboards) /\
  (raised r = None -> length (yielded r) = length dashboards) /\
  (raised r <> None -> length (yielded r) < length dashboards).
Proof.
  revert w. induction dashboards as [|[dashboard_name dashboard_info] dashboards IH];
    intros w.
  - simpl. split; [reflexivity | split; [reflexivity | congruence]].
  - simpl. unfold bind, logging_info, type_of, getitem, ret, raise, write_text.
    destruct (spec_type dashboard_info) as [type|];
      [|ends_early].
    destruct (DASHBOARD_TYPES !! type) as [cls|];
      [|ends_early].
    destruct (cls namespace dashboard_name dashboard_info _) as [[dashboard|e] w2];
      [|ends_early].
    destruct (dashboard_to_lookml dashboard w2) as [[text|e] w3];
      [|ends_early].
    rewrite yielded_yield, raised_yield.
    match goal with
    | |- context [_generate_dashboards _ _ _ dashboards ?x] =>
        destruct (IH x) as (Hy & Hnone & Hsome)
    end.
    simpl in *. repeat split.
    + f_equal. exact Hy.
    + intros H. f_equal. apply Hnone, H.
    + intros H. apply Hsome in H. lia.
Qed.

(** X9: a dashboard of a registered type that renders is always written:
    its file holds the header followed by the text of [to_lookml] as it is,
    so the header alone when that text is empty, and the dashboards after it
    are generated in the world with that file. *)
Theorem generate_dashboards_writes_text (dash_dir namespace : string)
    (before after : list (string * ArtifactSpec)) (dashboard_name : string)
    (dashboard_info : ArtifactSpec) (w w1 w2 w3 : World) (ys : list string)
    (type : string) (cls : string -> string -> ArtifactSpec -> M Dashboard)
    (dashboard : Dashboard) (text : string) :
  _generate_dashboards DASHBOARD_TYPES dash_dir namespace before w =
    (mkGenerated ys None, w1) ->
  spec_type dashboard_info = Some type ->
  DASHBOARD_TYPES !! type = Some cls ->
  cls namespace dashboard_name dashboard_info
      (dashboard_announced namespace dashboard_name w1) = (Ok dashboard, w2) ->
  dashboard_to_lookml dashboard w2 = (Ok text, w3) ->
  let path := dashboard_path dash_dir (dashboard_name, dashboard_info) in
  _generate_dashboards DASHBOARD_TYPES dash_dir namespace
      (before ++ (dashboard_name, dashboard_info) :: after) w =
    after_yields (ys ++ [path])
      (_generate_dashboards DASHBOARD_TYPES dash_dir namespace after
         (set_files (<[path := FILE_HEADER +:+ text]> (files w3)) w3)).
Proof.
  intros Hbefore Htype Hcls Hfrom Htext path.
  rewrite (generate_dashboards_app DASHBOARD_TYPES), Hbefore. simpl.
  unfold bind, type_of, getitem, logging_info, ret, write_text.
  unfold dashboard_announced, logging_info in Hfrom. simpl in Hfrom.
  rewrite Htype, Hcls, Hfrom, Htext. simpl.
  rewrite after_yields_snoc. reflexivity.
Qed.

End ExploreDashboardInvariants.

Lemma generate_dashboards_writes_text_witness :
  _generate_dashboards Scenarios.silent_DASHBOARD_TYPES "dashboards" "my_ns"
    ([] ++ ("quiet", Scenarios.silent_spec) :: []) Fixtures.empty_world =
    after_yields ([] ++ ["dashboards/quiet.dashboard.lookml"])
      (finished,
       set_files (<["dashboards/quiet.dashboard.lookml" := FILE_HEADER]> ∅)
         (dashboard_announced "my_ns" "quiet" Fixtures.empty_world)).
Proof.
  apply (generate_dashboards_writes_text Scenarios.silent_DASHBOARD_TYPES
           "dashboards" "my_ns" [] [] "quiet" Scenarios.silent_spec
           Fixtures.empty_world Fixtures.empty_world
           (dashboard_announced "my_ns" "quiet" Fixtures.empty_world)
           (dashboard_announced "my_ns" "quiet" Fixtures.empty_world)
           [] "silent_dashboard" (fun _ _ _ => ret (mkDashboard (ret EmptyString)))
           (mkDashboard (ret EmptyString)) EmptyString);
    reflexivity.
Defined.

(** ** Building the artifacts of a namespace *)

Section Building.

Variable VIEW_TYPES : gmap string (string -> string -> ArtifactSpec -> M View).
Variable EXPLORE_TYPES : gmap string (string -> ArtifactSpec -> string -> M Explore).
Variable DASHBOARD_TYPES : gmap string (string -> string -> ArtifactSpec -> M Dashboard).
Variable lkml_dump : Value -> option string.

(** X10: a spec without a [type] key makes the build of its artifact raise
    [KeyError('type')] in each of the three families, whatever the registry
    holds, and the exception ends the generator. *)
Theorem missing_type_raises_key_error (name namespace : string) (spec : ArtifactSpec)
    (before after : list (string * ArtifactSpec)) :
  spec_type spec = None ->
  (forall w w1 vs,
     _get_views_from_dict VIEW_TYPES before namespace w = (Ok vs, w1) ->
     _get_views_from_dict VIEW_TYPES (before ++ (name, spec) :: after) namespace w =
       (Raise (KeyError "type"), w1)) /\
  (forall out_dir views_dir v1_name w w1 ys,
     _generate_explores EXPLORE_TYPES lkml_dump out_dir namespace before views_dir
       v1_name w = (mkGenerated ys None, w1) ->
     _generate_explores EXPLORE_TYPES lkml_dump out_dir namespace
       (before ++ (name, spec) :: after) views_dir v1_name w =
       (mkGenerated ys (Some (KeyError "type")), explore_announced namespace name w1)) /\
  (forall dash_dir w w1 ys,
     _generate_dashboards DASHBOARD_TYPES dash_dir namespace before w =
       (mkGenerated ys None, w1) ->
     _generate_dashboards DASHBOARD_TYPES dash_dir namespace
       (before ++ (name, spec) :: after) w =
       (mkGenerated ys (Some (KeyError "type")), dashboard_announced namespace name w1)).
Proof.
  intros Htype. split; [|split].
  - intros w w1 vs Hbefore.
    rewrite get_views_from_dict_app, Hbefore. simpl.
    unfold bind, type_of, raise. rewrite Htype. reflexivity.
  - intros out_dir views_dir v1_name w w1 ys Hbefore.
    rewrite (generate_explores_app EXPLORE_TYPES lkml_dump), Hbefore. simpl.
    unfold bind, type_of, raise, logging_info. rewrite Htype.
    unfold after_yields, failed. simpl. rewrite app_nil_r. reflexivity.
  - intros dash_dir w w1 ys Hbefore.
    rewrite generate_dashboards_app, Hbefore. simpl.
    unfold bind, type_of, raise, logging_info. rewrite Htype.
    unfold after_yields, failed. simpl. rewrite app_nil_r. reflexivity.
Qed.

(** X11: when the views of a namespace are all built, there is one view per
    spec, and every spec has a [type] that is a key of [VIEW_TYPES]. *)
Theorem get_views_from_dict_ok (views : list (string * ArtifactSpec))
    (namespace : string) (w w' : World) (vs : list View) :
  _get_views_from_dict VIEW_TYPES views namespace w = (Ok vs, w') ->
  length vs = length views /\
  Forall (fun entry => exists type, spec_type (snd entry) = Some type /\
                                    is_Some (VIEW_TYPES !! type)) views.
Proof.
  revert w w' vs. induction views as [|[view_name view_info] views IH]; intros w w' vs.
  - simpl. unfold ret. intros H. injection H as <- _. split; [reflexivity|constructor].
  - simpl. unfold bind, type_of, getitem, ret, raise.
    destruct (spec_type view_info) as [type|] eqn:Hty; [|discriminate].
    destruct (VIEW_TYPES !! type) as [cls|] eqn:Hcls; [|discriminate].
    destruct (cls namespace view_name view_info w) as [[view|e] w1]; [|discriminate].
    destruct (_get_views_from_dict VIEW_TYPES views namespace w1) as [[more|e] w2] eqn:Hrest;
      [|discriminate].
    intros H. injection H as <- _.
    destruct (IH _ _ _ Hrest) as [Hlen Hall]. split.
    + simpl. f_equal. exact Hlen.
    + constructor; [|exact Hall]. exists type. simpl. split; [exact Hty|].
      rewrite Hcls. eexists. reflexivity.
Qed.

End Building.

Lemma missing_type_raises_key_error_witness :
  _get_views_from_dict Fixtures.mock_VIEW_TYPES
    ([("fission_histogram", Fixtures.histogram_spec)]
     ++ ("untyped", Scenarios.untyped_spec) :: [])
    "my_ns" Fixtures.empty_world =
    (Raise (KeyError "type"),
     snd (_get_views_from_dict Fixtures.mock_VIEW_TYPES
            [("fission_histogram", Fixtures.histogram_spec)] "my_ns"
            Fixtures.empty_world)).
Proof.
  refine (proj1 (missing_type_raises_key_error
           Fixtures.mock_VIEW_TYPES Fixtures.mock_EXPLORE_TYPES
           Fixtures.mock_DASHBOARD_TYPES Fixtures.mock_dump
           "untyped" "my_ns" Scenarios.untyped_spec
           [("fission_histogram", Fixtures.histogram_spec)] [] eq_refl)
           Fixtures.empty_world _
           [mkView "fission_histogram" "my_ns" histogram_type [Fixtures.table_entry] 0
              [] ["percentile_lower"; "percentile_upper"]] _).
  vm_compute. reflexivity.
Defined.

Lemma get_views_from_dict_ok_witness :
  length [mkView "fission_histogram" "my_ns" histogram_type [Fixtures.table_entry] 0
            [] ["percentile_lower"; "percentile_upper"]] =
    length [("fission_histogram", Fixtures.histogram_spec)] /\
  Forall (fun entry => exists type, spec_type (snd entry) = Some type /\
                                    is_Some (Fixtures.mock_VIEW_TYPES !! type))
    [("fission_histogram", Fixtures.histogram_spec)].
Proof.
  apply (get_views_from_dict_ok Fixtures.mock_VIEW_TYPES
           [("fission_histogram", Fixtures.histogram_spec)] "my_ns"
           Fixtures.empty_world
           (snd (_get_views_from_dict Fixtures.mock_VIEW_TYPES
                   [("fission_histogram", Fixtures.histogram_spec)] "my_ns"
                   Fixtures.empty_world))).
  vm_compute. reflexivity.
Defined.

(** ** The v1 names of the applications *)

Lemma fold_insert_lookup_notin (apps : list (string * string)) (m : gmap string string)
    (n : string) :
  n ∉ map fst apps ->
  fold_left (fun m d => <[fst d := snd d]> m) apps m !! n = m !! n.
Proof.
  revert m. induction apps as [|[k v] apps IH]; intros m Hn; [reflexivity|].
  simpl in *. apply not_elem_of_cons in Hn as [Hk Hn].
  rewrite (IH _ Hn). apply lookup_insert_ne. congruence.
Qed.

(** X12: in the map from application names to v1 names the last listing of
    a name wins, and a namespace that no listing names has no v1 name:
    [None] is what its views and explores are given. *)
Theorem glean_apps_last_listing_wins (before after : list (string * string))
    (n v1 : string) :
  n ∉ map fst after ->
  v1_name_of (_glean_apps_to_v1_map (before ++ (n, v1) :: after)) n = AStr v1 /\
  (forall namespace, namespace ∉ map fst (before ++ (n, v1) :: after) ->
     v1_name_of (_glean_apps_to_v1_map (before ++ (n, v1) :: after)) namespace = ANone).
Proof.
  intros Hn. unfold v1_name_of, _glean_apps_to_v1_map. split.
  - rewrite fold_left_app. simpl.
    rewrite (fold_insert_lookup_notin _ _ _ Hn), lookup_insert_eq. reflexivity.
  - intros namespace Hns.
    rewrite (fold_insert_lookup_notin _ _ _ Hns), lookup_empty. reflexivity.
Qed.

Lemma glean_apps_last_listing_wins_witness :
  v1_name_of (_glean_apps_to_v1_map Scenarios.glean_apps) "fenix"
    = AStr "org-mozilla-firefox" /\
  (forall namespace, namespace ∉ map fst Scenarios.glean_apps ->
     v1_name_of (_glean_apps_to_v1_map Scenarios.glean_apps) namespace = ANone).
Proof.
  apply (glean_apps_last_listing_wins
           [("fenix", "org-mozilla-fenix"); ("burnham", "burnham")] []
           "fenix" "org-mozilla-firefox").
  apply not_elem_of_nil.
Defined.

(** ** The namespaces of a run *)

Section Namespaces.

Variable VIEW_TYPES : gmap string (string -> string -> ArtifactSpec -> M View).
Variable EXPLORE_TYPES : gmap string (string -> ArtifactSpec -> string -> M Explore).
Variable DASHBOARD_TYPES : gmap string (string -> string -> ArtifactSpec -> M Dashboard).
Variable lkml_dump : Value -> option string.
Variable get_file_from_looker_hub : string -> M unit.
Variable schema_of : Arg -> string -> list (Arg * string) -> Result (list Dimension).
Variable other_to_lookml : View -> Arg -> Arg -> M Value.
Variable generate_datagroups : list View -> string -> string -> Arg -> M unit.

Local Abbreviation namespace_run :=
  (generate_namespace VIEW_TYPES EXPLORE_TYPES DASHBOARD_TYPES lkml_dump
     get_file_from_looker_hub schema_of other_to_lookml generate_datagroups).
Local Abbreviation namespaces_run :=
  (generate_namespaces VIEW_TYPES EXPLORE_TYPES DASHBOARD_TYPES lkml_dump
     get_file_from_looker_hub schema_of other_to_lookml generate_datagroups).

Lemma generate_namespaces_app (target : string)
    (before after : list (string * NamespaceObjects))
    (v1_mapping : gmap string string) (dryrun : Arg) (namespace_filter : list string)
    (w : World) :
  namespaces_run target (before ++ after) v1_mapping dryrun namespace_filter w =
    match namespaces_run target before v1_mapping dryrun namespace_filter w with
    | (Ok _, w1) => namespaces_run target after v1_mapping dryrun namespace_filter w1
    | (Raise e, w1) => (Raise e, w1)
    end.
Proof.
  revert w. induction before as [|[namespace lookml_objects] before IH]; intros w.
  - reflexivity.
  - simpl. unfold bind.
    match goal with
    | |- context [(if ?c then ?m else ret tt) w] =>
        destruct ((if c then m else ret tt) w) as [[[]|e] w1]
    end; [apply IH | reflexivity].
Qed.

(** X13: with a namespace filter that is not empty and names none of the
    namespaces of the document, [_lookml] only writes the copy of the
    namespaces document: nothing is built, generated or logged. *)
Theorem lookml_filter_excludes (namespaces_content : string)
    (_namespaces : list (string * NamespaceObjects))
    (glean_apps : list (string * string)) (target_dir : string) (dryrun : Arg)
    (namespace_filter : list string) (w : World) :
  namespace_filter <> [] ->
  (forall namespace, namespace ∈ map fst _namespaces -> namespace ∉ namespace_filter) ->
  _lookml VIEW_TYPES EXPLORE_TYPES DASHBOARD_TYPES lkml_dump get_file_from_looker_hub
    schema_of other_to_lookml generate_datagroups
    namespaces_content _namespaces glean_apps target_dir dryrun namespace_filter w =
    (Ok tt,
     set_files (<[path_join target_dir "namespaces.yaml" := namespaces_content]> (files w))
       w).
Proof.
  intros Hne Hout. unfold _lookml, bind, write_text.
  generalize (set_files (<[path_join target_dir "namespaces.yaml" := namespaces_content]>
                           (files w)) w) as w0.
  induction _namespaces as [|[namespace lookml_objects] rest IH]; intros w0.
  - reflexivity.
  - simpl. unfold bind.
    assert (Hskip : (length namespace_filter =? 0) || bool_decide (namespace ∈ namespace_filter)
                    = false).
    { apply orb_false_intro.
      - destruct namespace_filter; [congruence | reflexivity].
      - apply bool_decide_eq_false_2, Hout. simpl. apply list_elem_of_here. }
    rewrite Hskip. unfold ret at 1.
    apply IH. intros ns Hns. apply Hout. simpl. apply list_elem_of_further, Hns.
Qed.

(** X14: the empty namespace filter selects every namespace: a run with it
    is the run with a filter that names all the namespaces of the
    document. *)
Theorem lookml_empty_filter_is_all (target : string)
    (_namespaces : list (string * NamespaceObjects))
    (v1_mapping : gmap string string) (dryrun : Arg) (namespace_filter : list string)
    (w : World) :
  (forall namespace, namespace ∈ map fst _namespaces -> namespace ∈ namespace_filter) ->
  namespaces_run target _namespaces v1_mapping dryrun [] w =
  namespaces_run target _namespaces v1_mapping dryrun namespace_filter w.
Proof.
  revert w. induction _namespaces as [|[namespace lookml_objects] rest IH]; intros w Hall.
  - reflexivity.
  - simpl.
    rewrite (bool_decide_eq_true_2 (namespace ∈ namespace_filter))
      by (apply Hall; simpl; apply list_elem_of_here).
    rewrite orb_true_r. unfold bind.
    destruct (namespace_run target namespace lookml_objects v1_mapping dryrun w)
      as [[[]|e] w1]; [|reflexivity].
    apply IH. intros ns Hns. apply Hall. simpl. apply list_elem_of_further, Hns.
Qed.

Lemma run_body_nothing (paths : list string) (w : World) :
  run_body (fun _ => ret tt) paths w = (Ok tt, w).
Proof.
  induction paths as [|path more IH]; [reflexivity|].
  simpl. unfold bind, ret. exact IH.
Qed.

(** A loop whose body does nothing is the generator run once over all the
    items and to its end, for a generator that takes its items in turn:
    the loop adds nothing to the generator but the effects of its body. *)
Lemma for_each_nothing {A : Type} (generator : list A -> World -> Generated * World)
    (items : list A) (w : World) :
  (forall w0, generator [] w0 = (finished, w0)) ->
  (forall first second w0,
     generator (first ++ second) w0 =
       match generator first w0 with
       | (mkGenerated ys None, w1) => after_yields ys (generator second w1)
       | (mkGenerated ys (Some e), w1) => (mkGenerated ys (Some e), w1)
       end) ->
  for_each generator (fun _ => ret tt) items w =
    match generator items w with
    | (mkGenerated _ None, w') => (Ok tt, w')
    | (mkGenerated _ (Some e), w') => (Raise e, w')
    end.
Proof.
  intros Hnil Happ. revert w. induction items as [|item rest IH]; intros w.
  - simpl. rewrite Hnil. reflexivity.
  - simpl.
    change (generator (item :: rest) w) with (generator ([item] ++ rest) w).
    rewrite (Happ [item] rest w).
    destruct (generator [item] w) as [[ys [e|]] w1]; rewrite run_body_nothing.
    + reflexivity.
    + rewrite IH. destruct (generator rest w1) as [[ys' [e'|]] w2]; reflexivity.
Qed.

Lemma for_each_views_nothing (out_dir : string) (views : list View)
    (v1_name dryrun : Arg) (w : World) :
  for_each (fun views => _generate_views lkml_dump get_file_from_looker_hub schema_of
                           other_to_lookml out_dir views v1_name dryrun)
    (fun _ => ret tt) views w =
    match _generate_views lkml_dump get_file_from_looker_hub schema_of other_to_lookml
            out_dir views v1_name dryrun w with
    | (mkGenerated _ None, w') => (Ok tt, w')
    | (mkGenerated _ (Some e), w') => (Raise e, w')
    end.
Proof.
  apply (for_each_nothing
           (fun views => _generate_views lkml_dump get_file_from_looker_hub schema_of
                           other_to_lookml out_dir views v1_name dryrun)).
  - reflexivity.
  - intros first second w0. apply generate_views_app.
Qed.

(** X15: an exception that ends the loop over the generation of the views
    of a namespace ends the whole run in the world that loop left: no
    datagroup, explore or dashboard of that namespace is generated, the
    namespaces after it are not touched, and what was written and logged
    before stays. *)
Theorem lookml_stops_at_failing_views (target : string)
    (before after : list (string * NamespaceObjects)) (namespace : string)
    (lookml_objects : NamespaceObjects) (v1_mapping : gmap string string)
    (dryrun : Arg) (namespace_filter : list string) (w w1 w2 w3 : World)
    (views : list View) (e : Exc) :
  namespaces_run target before v1_mapping dryrun namespace_filter w = (Ok tt, w1) ->
  (length namespace_filter =? 0) || bool_decide (namespace ∈ namespace_filter) = true ->
  _get_views_from_dict VIEW_TYPES (default [] (ns_views lookml_objects)) namespace
    (snd (logging_info (nl +:+ "Generating namespace " +:+ namespace) w1)) =
    (Ok views, w2) ->
  for_each (fun views => _generate_views lkml_dump get_file_from_looker_hub schema_of
                           other_to_lookml
                           (path_join (path_join target namespace) "views") views
                           (v1_name_of v1_mapping namespace) dryrun)
    log_path views (snd (logging_info "  Generating views" w2)) = (Raise e, w3) ->
  namespaces_run target (before ++ (namespace, lookml_objects) :: after)
    v1_mapping dryrun namespace_filter w = (Raise e, w3).
Proof.
  intros Hbefore Hpass Hviews Hloop.
  rewrite generate_namespaces_app, Hbefore. simpl. rewrite Hpass.
  unfold bind at 1. unfold generate_namespace.
  unfold bind at 1. unfold logging_info at 1.
  unfold logging_info in Hviews. simpl in Hviews.
  unfold bind at 1. rewrite Hviews.
  unfold bind at 1. unfold logging_info at 1.
  unfold logging_info in Hloop. simpl in Hloop.
  unfold bind at 1. rewrite Hloop. reflexivity.
Qed.

End Namespaces.

Lemma lookml_filter_excludes_witness :
  Scenarios.run_lookml
    [("good", Scenarios.good_namespace); ("broken", Scenarios.broken_namespace)]
    ["elsewhere"] =
    (Ok tt,
     set_files (<["looker-hub/namespaces.yaml" := "namespaces: text"]> ∅)
       Fixtures.empty_world).
Proof.
  apply (lookml_filter_excludes Fixtures.mock_VIEW_TYPES Fixtures.mock_EXPLORE_TYPES
           Fixtures.mock_DASHBOARD_TYPES Fixtures.mock_dump Fixtures.mock_get_file
           Fixtures.mock_schema_of Fixtures.mock_other_to_lookml (fun _ _ _ _ => ret tt)).
  - discriminate.
  - intros namespace Hin Hout. simpl in Hin.
    apply list_elem_of_singleton in Hout. subst namespace.
    apply elem_of_cons in Hin as [Hin|Hin]; [discriminate|].
    apply list_elem_of_singleton in Hin. discriminate.
Defined.

Lemma lookml_empty_filter_is_all_witness :
  Scenarios.run_namespaces
    [("good", Scenarios.good_namespace); ("broken", Scenarios.broken_namespace)] [] =
  Scenarios.run_namespaces
    [("good", Scenarios.good_namespace); ("broken", Scenarios.broken_namespace)]
    ["broken"; "good"].
Proof.
  apply (lookml_empty_filter_is_all Fixtures.mock_VIEW_TYPES Fixtures.mock_EXPLORE_TYPES
           Fixtures.mock_DASHBOARD_TYPES Fixtures.mock_dump Fixtures.mock_get_file
           Fixtures.mock_schema_of Fixtures.mock_other_to_lookml (fun _ _ _ _ => ret tt)).
  intros namespace Hin. simpl in Hin.
  apply elem_of_cons in Hin as [->|Hin].
  - apply list_elem_of_further, list_elem_of_here.
  - apply list_elem_of_singleton in Hin. subst namespace. apply list_elem_of_here.
Defined.

Lemma lookml_stops_at_failing_views_witness :
  fst (Scenarios.run_namespaces
         [("good", Scenarios.good_namespace); ("broken", Scenarios.broken_namespace);
          ("later", Scenarios.good_namespace)] []) =
    Raise (PyException "Operational Monitoring view fission_histogram has no tables")
  /\ files (snd (Scenarios.run_namespaces
                   [("good", Scenarios.good_namespace);
                    ("broken", Scenarios.broken_namespace);
                    ("later", Scenarios.good_namespace)] []))
       !! "looker-hub/later/views/fission_histogram.view.lkml" = None
  /\ log (snd (Scenarios.run_namespaces
                 [("good", Scenarios.good_namespace);
                  ("broken", Scenarios.broken_namespace);
                  ("later", Scenarios.good_namespace)] [])) =
       [nl +:+ "Generating namespace good";
        "  Generating views";
        "Generating lookml for view fission_histogram in good of type operational_monitoring_histogram_view";
        "    ...Generating looker-hub/good/views/fission_histogram.view.lkml";
        "  Generating datagroups";
        "  Generating explores";
        "Generating lookml for explore fission in good";
        "    ...Generating looker-hub/good/explores/fission.explore.lkml";
        "  Generating dashboards";
        nl +:+ "Generating namespace broken";
        "  Generating views";
        "Generating lookml for view fission_histogram in broken of type operational_monitoring_histogram_view"].
Proof.
  pose (w1 := snd (Scenarios.run_namespaces [("good", Scenarios.good_namespace)] [])).
  pose (built :=
          _get_views_from_dict Fixtures.mock_VIEW_TYPES
            (default [] (ns_views Scenarios.broken_namespace)) "broken"
            (snd (logging_info (nl +:+ "Generating namespace " +:+ "broken") w1))).
  pose (loop :=
          for_each
            (fun views =>
               _generate_views Fixtures.mock_dump Fixtures.mock_get_file
                 Fixtures.mock_schema_of Fixtures.mock_other_to_lookml
                 (path_join (path_join "looker-hub" "broken") "views") views
                 (v1_name_of ∅ "broken") (ADryRun false))
            log_path
            (match fst built with Ok vs => vs | Raise _ => [] end)
            (snd (logging_info "  Generating views" (snd built)))).
  assert (H := lookml_stops_at_failing_views
           Fixtures.mock_VIEW_TYPES Fixtures.mock_EXPLORE_TYPES
           Fixtures.mock_DASHBOARD_TYPES Fixtures.mock_dump Fixtures.mock_get_file
           Fixtures.mock_schema_of Fixtures.mock_other_to_lookml (fun _ _ _ _ => ret tt)
           "looker-hub" [("good", Scenarios.good_namespace)]
           [("later", Scenarios.good_namespace)] "broken" Scenarios.broken_namespace
           ∅ (ADryRun false) [] Fixtures.empty_world w1 (snd built) (snd loop)
           (match fst built with Ok vs => vs | Raise _ => [] end)
           (PyException "Operational Monitoring view fission_histogram has no tables")).
  unfold Scenarios.run_namespaces. simpl app in H. rewrite H.
  - repeat split; vm_compute; reflexivity.
  - vm_compute. reflexivity.
  - reflexivity.
  - vm_compute. reflexivity.
  - vm_compute. reflexivity.
Defined.

(** ** What [to_lookml] of the histogram view touches *)

Section HistogramViewEffects.

Variable schema_of : Arg -> string -> list (Arg * string) -> Result (list Dimension).

(** X16: whatever its outcome, [to_lookml] of the histogram view writes no
    file, prints and logs nothing, creates no list and changes no list but
    the dimensions of its view; it calls the introspector at most once, and
    then for the table of the first table entry. *)
Theorem to_lookml_footprint (self : View) (a b : Arg) (w : World) :
  let w' := snd (to_lookml schema_of self a b w) in
  files w' = files w /\ stdout w' = stdout w /\ log w' = log w /\
  length (heap w') = length (heap w) /\
  (forall l, l <> dimensions self -> deref (heap w') l = deref (heap w) l) /\
  (dryruns w' = dryruns w \/
   exists t0 more tbl,
     tables self = t0 :: more /\ t_table t0 = Some tbl /\
     dryruns w' = dryruns w ++ [(a, tbl)]).
Proof.
  unfold to_lookml.
  destruct (tables self) as [|t0 more] eqn:Ht.
  { simpl. repeat split; auto. }
  unfold table_of, bind, ret, raise, _generate_dimensions, list_extend.
  destruct (t_table t0) as [tbl|] eqn:Htbl.
  2: { simpl. repeat split; auto. }
  destruct (schema_of a tbl (dryruns w)) as [sch|e]; simpl.
  - repeat split; auto.
    + apply length_alter.
    + intros l Hl. apply deref_alter_ne. congruence.
    + right. exists t0, more, tbl. auto.
  - repeat split; auto.
    right. exists t0, more, tbl. auto.
Qed.

(** X17: a call of [to_lookml] that raises has not extended the dimensions
    of the view: the heap is as it was.  The exception is the one for the
    empty table list, [KeyError('table')] for a first table entry without a
    table, or the exception of the introspector. *)
Theorem to_lookml_failure_changes_no_list (self : View) (a b : Arg) (w : World)
    (e : Exc) :
  fst (to_lookml schema_of self a b w) = Raise e ->
  heap (snd (to_lookml schema_of self a b w)) = heap w /\
  ((tables self = [] /\
    e = PyException ("Operational Monitoring view " +:+ name self +:+ " has no tables")) \/
   (exists t0 more, tables self = t0 :: more /\ t_table t0 = None /\
                    e = KeyError "table") \/
   (exists t0 more tbl, tables self = t0 :: more /\ t_table t0 = Some tbl /\
                        schema_of a tbl (dryruns w) = Raise e)).
Proof.
  unfold to_lookml.
  destruct (tables self) as [|t0 more] eqn:Ht.
  { simpl. intros H. injection H as <-. split; [reflexivity|]. left. auto. }
  unfold table_of, bind, ret, raise, _generate_dimensions, list_extend.
  destruct (t_table t0) as [tbl|] eqn:Htbl.
  2: { simpl. intros H. injection H as <-. split; [reflexivity|].
       right. left. exists t0, more. auto. }
  destruct (schema_of a tbl (dryruns w)) as [sch|e'] eqn:Hsch; simpl.
  - discriminate.
  - intros H. injection H as <-. split; [reflexivity|].
    right. right. exists t0, more, tbl. auto.
Qed.

(** X18: the dictionary that [to_lookml] returns holds the dimensions list
    of the view itself, not a copy: dimensions appended to the view after
    the call show in what is rendered from the dictionary returned before. *)
Theorem to_lookml_result_shares_dimensions (self : View) (a b : Arg) (w : World)
    (t0 : TableEntry) (more : list TableEntry) (tbl : string) (sch : list Dimension) :
  tables self = t0 :: more ->
  t_table t0 = Some tbl ->
  schema_of a tbl (dryruns w) = Ok sch ->
  dimensions self < length (heap w) ->
  exists w1 : World,
    to_lookml schema_of self a b w = (Ok (histogram_lookml self tbl), w1) /\
    forall later : list Dimension,
      view_entry "dimensions"
        (snapshot (heap (snd (list_extend (dimensions self) later w1)))
           (histogram_lookml self tbl)) =
        Some (VList (map dimension_dict
                       (deref (heap w) (dimensions self)
                        ++ filter (fun d => dimension_allowed t0 d = true) sch
                        ++ later))).
Proof.
  intros Ht Htbl Hsch Hl. eexists. split.
  - apply (to_lookml_ok schema_of self a b w t0 more tbl sch Ht Htbl Hsch).
  - intros later. unfold list_extend. simpl.
    rewrite deref_alter by (rewrite length_alter; assumption).
    rewrite deref_alter by assumption.
    rewrite <- app_assoc. reflexivity.
Qed.

End HistogramViewEffects.

Lemma to_lookml_failure_changes_no_list_witness :
  heap (snd (to_lookml Fixtures.denied_schema_of Fixtures.histogram_view ANone
               (ADryRun true) Fixtures.world0)) = heap Fixtures.world0 /\
  ((tables Fixtures.histogram_view = [] /\
    DryRunError PERMISSION_DENIED true "denied" =
      PyException ("Operational Monitoring view " +:+ name Fixtures.histogram_view
                   +:+ " has no tables")) \/
   (exists t0 more, tables Fixtures.histogram_view = t0 :: more /\ t_table t0 = None /\
                    DryRunError PERMISSION_DENIED true "denied" = KeyError "table") \/
   (exists t0 more tbl, tables Fixtures.histogram_view = t0 :: more /\
                        t_table t0 = Some tbl /\
                        Fixtures.denied_schema_of ANone tbl (dryruns Fixtures.world0) =
                          Raise (DryRunError PERMISSION_DENIED true "denied"))).
Proof.
  apply (to_lookml_failure_changes_no_list Fixtures.denied_schema_of
           Fixtures.histogram_view ANone (ADryRun true) Fixtures.world0).
  reflexivity.
Defined.

Lemma to_lookml_result_shares_dimensions_witness :
  exists w1 : World,
    to_lookml Fixtures.mock_schema_of Fixtures.histogram_view ANone (ADryRun true)
      Fixtures.world0 =
      (Ok (histogram_lookml Fixtures.histogram_view
             "moz-fx-data-shared-prod.operational_monitoring.bug_123_test_statistics"),
       w1) /\
    forall later : list Dimension,
      view_entry "dimensions"
        (snapshot (heap (snd (list_extend (dimensions Fixtures.histogram_view) later w1)))
           (histogram_lookml Fixtures.histogram_view
              "moz-fx-data-shared-prod.operational_monitoring.bug_123_test_statistics")) =
        Some (VList (map dimension_dict
                       (deref (heap Fixtures.world0) (dimensions Fixtures.histogram_view)
                        ++ filter (fun d => dimension_allowed Fixtures.table_entry d = true)
                             Fixtures.mock_schema
                        ++ later))).
Proof.
  apply (to_lookml_result_shares_dimensions Fixtures.mock_schema_of
           Fixtures.histogram_view ANone (ADryRun true) Fixtures.world0
           Fixtures.table_entry []
           "moz-fx-data-shared-prod.operational_monitoring.bug_123_test_statistics"
           Fixtures.mock_schema); try reflexivity.
  simpl. lia.
Defined.

(** ** [textwrap.dedent] only removes blanks at the start of lines *)

Lemma string_app_nil_r (s : string) : s +:+ EmptyString = s.
Proof.
  induction s as [|c s IH]; [reflexivity|].
  change (String c (s +:+ EmptyString) = String c s). rewrite IH. reflexivity.
Qed.

Lemma all_blank_app (a b : string) :
  all_blank (a +:+ b) = all_blank a && all_blank b.
Proof.
  induction a as [|c a IH]; [reflexivity|].
  change (all_blank (String c (a +:+ b)) = all_blank (String c a) && all_blank b).
  simpl. rewrite IH. apply andb_assoc.
Qed.

Lemma split_lines_no_newline (s : string) :
  Forall (fun line => has_char newline_char line = false) (split_lines s).
Proof.
  induction s as [|c s IH]; simpl.
  - repeat constructor.
  - destruct (Ascii.eqb c newline_char) eqn:Hc.
    + constructor; [reflexivity | exact IH].
    + destruct (split_lines s) as [|line more].
      * constructor; [simpl; rewrite Hc; reflexivity | constructor].
      * inversion IH as [|? ? Hline Hmore]; subst.
        constructor; [simpl; rewrite Hc, Hline; reflexivity | exact Hmore].
Qed.

Lemma split_lines_one_line (s : string) :
  has_char newline_char s = false -> split_lines s = [s].
Proof.
  induction s as [|c s IH]; intros Hs; [reflexivity|].
  simpl in *. apply orb_false_elim in Hs as [Hc Hs].
  rewrite Hc, (IH Hs). reflexivity.
Qed.

(** Splitting what was joined gives the lines back. *)
Lemma split_join_lines (ls : list string) :
  ls <> [] ->
  Forall (fun line => has_char newline_char line = false) ls ->
  split_lines (join_lines ls) = ls.
Proof.
  induction ls as [|x ls IH]; intros Hne Hall; [congruence|].
  inversion Hall as [|? ? Hx Hls]; subst.
  destruct ls as [|y ls].
  - simpl. apply split_lines_one_line, Hx.
  - change (join_lines (x :: y :: ls)) with (x +:+ nl +:+ join_lines (y :: ls)).
    rewrite (split_lines_line _ _ Hx), IH; [reflexivity | discriminate | exact Hls].
Qed.

Lemma strip_prefix_app (p s rest : string) :
  strip_prefix p s = Some rest -> s = p +:+ rest.
Proof.
  revert s. induction p as [|a p IH]; intros s H.
  - simpl in H. injection H as ->. reflexivity.
  - destruct s as [|c s]; simpl in H; [discriminate|].
    destruct (Ascii.eqb a c) eqn:Hac; [|discriminate].
    apply Ascii.eqb_eq in Hac. subst c.
    change (String a s = String a (p +:+ rest)). f_equal. apply IH, H.
Qed.

Lemma all_blank_leading_blanks (s : string) : all_blank (leading_blanks s) = true.
Proof.
  induction s as [|c s IH]; [reflexivity|].
  simpl. destruct (is_blank c) eqn:Hc; [|reflexivity].
  simpl. rewrite Hc, IH. reflexivity.
Qed.

Lemma all_blank_common_prefix (a b : string) :
  all_blank a = true -> all_blank (common_prefix a b) = true.
Proof.
  revert b. induction a as [|x a IH]; intros b Ha; [reflexivity|].
  destruct b as [|y b]; [reflexivity|].
  simpl in *. apply andb_true_iff in Ha as [Hx Ha].
  destruct (Ascii.eqb x y); [|reflexivity].
  simpl. rewrite Hx, (IH _ Ha). reflexivity.
Qed.

(** The margin is made of blanks. *)
Lemma all_blank_margin (inds : list string) (acc : option string) (m : string) :
  Forall (fun indent => all_blank indent = true) inds ->
  (forall m0, acc = Some m0 -> all_blank m0 = true) ->
  fold_left update_margin inds acc = Some m ->
  all_blank m = true.
Proof.
  revert acc. induction inds as [|indent inds IH]; intros acc Hall Hacc Hfold.
  - simpl in Hfold. apply Hacc, Hfold.
  - inversion Hall as [|? ? Hi Hrest]; subst. simpl in Hfold.
    apply (IH _ Hrest) in Hfold; [exact Hfold|].
    intros m0 Hm0. destruct acc as [m1|]; simpl in Hm0.
    + destruct (String.prefix m1 indent).
      * injection Hm0 as <-. apply Hacc. reflexivity.
      * destruct (String.prefix indent m1).
        -- injection Hm0 as <-. exact Hi.
        -- injection Hm0 as <-. apply all_blank_common_prefix, Hacc. reflexivity.
    + injection Hm0 as <-. exact Hi.
Qed.

Lemma blank_out_suffix (line : string) :
  exists blanks, line = blanks +:+ blank_out line /\ all_blank blanks = true.
Proof.
  unfold blank_out. destruct (all_blank line) eqn:Hb.
  - exists line. rewrite string_app_nil_r. auto.
  - exists EmptyString. auto.
Qed.

Lemma cut_margin_suffix (margin line : string) :
  all_blank margin = true ->
  exists blanks, line = blanks +:+ cut_margin margin line /\ all_blank blanks = true.
Proof.
  intros Hm. unfold cut_margin.
  destruct (strip_prefix margin line) as [rest|] eqn:Hs; simpl.
  - exists margin. split; [apply strip_prefix_app, Hs | exact Hm].
  - exists EmptyString. auto.
Qed.

Lemma suffix_no_newline (blanks out line : string) :
  line = blanks +:+ out ->
  has_char newline_char line = false -> has_char newline_char out = false.
Proof.
  intros -> H. rewrite has_char_app in H. apply orb_false_elim in H as [_ H]. exact H.
Qed.

(** X19: [dedent] keeps the lines of a text and changes a line only by
    removing blanks from its start: every line of the result is the line of
    the text at the same place without some leading spaces and tabs. *)
Theorem dedent_removes_leading_blanks (text : string) :
  Forall2 (fun out line => exists blanks,
             line = blanks +:+ out /\ all_blank blanks = true)
    (split_lines (dedent text)) (split_lines text).
Proof.
  assert (Hstep : forall f : string -> string,
            (forall line, exists blanks,
                line = blanks +:+ f line /\ all_blank blanks = true) ->
            Forall2 (fun out line => exists blanks,
                       line = blanks +:+ out /\ all_blank blanks = true)
              (split_lines (join_lines (map f (split_lines text)))) (split_lines text)).
  { intros f Hf. rewrite split_join_lines.
    - apply Forall2_fmap_l, Forall_Forall2_diag, Forall_forall.
      intros line _. apply Hf.
    - destruct (split_lines text) eqn:Hl; [|discriminate].
      exfalso. exact (split_lines_nonempty text Hl).
    - apply Forall_fmap. eapply Forall_impl; [apply split_lines_no_newline|].
      intros line Hline. simpl. destruct (Hf line) as (blanks & Heq & _).
      exact (suffix_no_newline _ _ _ Heq Hline). }
  unfold dedent.
  destruct (fold_left update_margin (indents (map blank_out (split_lines text))) None)
    as [[|c m]|] eqn:Hfold.
  - apply Hstep, blank_out_suffix.
  - rewrite map_map. apply Hstep. intros line.
    assert (Hm : all_blank (String c m) = true).
    { apply (all_blank_margin _ _ _) with (3 := Hfold); [|discriminate].
      unfold indents. apply Forall_fmap, Forall_forall.
      intros l _. apply all_blank_leading_blanks. }
    destruct (blank_out_suffix line) as (b1 & H1 & Hb1).
    destruct (cut_margin_suffix (String c m) (blank_out line) Hm) as (b2 & H2 & Hb2).
    exists (b1 +:+ b2). split.
    + rewrite <- string_app_assoc, <- H2. exact H1.
    + rewrite all_blank_app, Hb1, Hb2. reflexivity.
  - apply Hstep, blank_out_suffix.
Qed.

(** ** A fallback fetch that is interrupted *)

Section FallbackInterrupted.

Variable lkml_dump : Value -> option string.
Variable get_file_from_looker_hub : string -> M unit.
Variable schema_of : Arg -> string -> list (Arg * string) -> Result (list Dimension).
Variable other_to_lookml : View -> Arg -> Arg -> M Value.

Local Abbreviation generate_views :=
  (_generate_views lkml_dump get_file_from_looker_hub schema_of other_to_lookml).

(** X20: what the fallback fetch raises is swallowed only if it is an
    [Exception]: anything else, such as a keyboard interrupt, leaves view
    generation at once, without the message of a skipped view and without
    the views that follow. *)
Theorem fallback_interrupt_ends_generation (out_dir : string)
    (before after : list View) (view : View) (v1_name dryrun : Arg)
    (w w1 w2 w3 : World) (ys : list string) (msg : string) (ex : Exc) :
  generate_views out_dir before v1_name dryrun w = (mkGenerated ys None, w1) ->
  view_to_lookml schema_of other_to_lookml view v1_name dryrun (view_announced view w1) =
    (Raise (DryRunError PERMISSION_DENIED true msg), w2) ->
  get_file_from_looker_hub (view_path out_dir view)
    (snd (print ("Permission error dry running " +:+ name view +:+
                 ". Copy existing " +:+ view_path out_dir view +:+
                 " file from looker-hub.") w2)) = (Raise ex, w3) ->
  is_Exception ex = false ->
  generate_views out_dir (before ++ view :: after) v1_name dryrun w =
    (mkGenerated ys (Some ex), w3).
Proof.
  intros Hbefore Hview Hget Hex.
  rewrite (generate_views_after _ _ _ _ _ _ _ _ _ _ _ _ Hbefore).
  unfold view_announced in Hview. unfold view_path, print in Hget. simpl in *.
  rewrite Hview. simpl. rewrite Hget, Hex.
  unfold after_yields, failed. simpl. rewrite app_nil_r. reflexivity.
Qed.

End FallbackInterrupted.

Lemma fallback_interrupt_ends_generation_witness :
  _generate_views Fixtures.mock_dump (fun _ => raise KeyboardInterrupt)
    Fixtures.mock_schema_of Fixtures.mock_other_to_lookml "views"
    ([] ++ Fixtures.plain_view "cached" :: [Fixtures.plain_view "later"])
    ANone (ADryRun true) Fixtures.world0 =
    (mkGenerated [] (Some KeyboardInterrupt),
     snd (print "Permission error dry running cached. Copy existing views/cached.view.lkml file from looker-hub."
            (view_announced (Fixtures.plain_view "cached") Fixtures.world0))).
Proof.
  apply (fallback_interrupt_ends_generation Fixtures.mock_dump
           (fun _ => raise KeyboardInterrupt) Fixtures.mock_schema_of
           Fixtures.mock_other_to_lookml "views" [] [Fixtures.plain_view "later"]
           (Fixtures.plain_view "cached") ANone (ADryRun true)
           Fixtures.world0 Fixtures.world0
           (view_announced (Fixtures.plain_view "cached") Fixtures.world0)
           _ [] "denied" KeyboardInterrupt); reflexivity.
Defined.
